(** * EFA proposal generator: the amount-in-words routines

    A shallow embedding of [number_to_words] and [price_to_words] from
    [efa_word_generator.py], with the Python behaviours the two functions
    rely on written out: list indexing (negative indices count from the
    end, anything else out of range raises [IndexError]), floor division
    and modulo on integers, and binary64 arithmetic for the price. *)

From Stdlib Require Import ZArith List String Ascii Bool Lia.
From Stdlib Require Import SpecFloat.
From Equations Require Import Equations.

Import ListNotations.
Local Open Scope string_scope.
Local Open Scope Z_scope.

(** ** Python results: a value or a raised exception *)

Inductive PyExc : Type :=
| IndexError
| ValueError
| OverflowError.

Inductive PyResult (A : Type) : Type :=
| Ok (a : A)
| Raise (e : PyExc).

Arguments Ok {A} a.
Arguments Raise {A} e.

Definition bind {A B : Type} (c : PyResult A) (k : A -> PyResult B)
  : PyResult B :=
  match c with
  | Ok a => k a
  | Raise e => Raise e
  end.

Notation "x <- c ;; k" := (bind c (fun x => k))
  (at level 61, c at next level, right associativity).

(** ** Python list indexing: [l[i]] *)

Definition py_index {A : Type} (l : list A) (i : Z) : PyResult A :=
  let len := Z.of_nat (List.length l) in
  let j := if i <? 0 then i + len else i in
  if (j <? 0) || (len <=? j) then Raise IndexError
  else match nth_error l (Z.to_nat j) with
       | Some a => Ok a
       | None => Raise IndexError
       end.

(** ** The word tables of [number_to_words] *)

Definition ones : list string :=
  [""; "One"; "Two"; "Three"; "Four"; "Five"; "Six"; "Seven"; "Eight"; "Nine"].

Definition tens : list string :=
  [""; ""; "Twenty"; "Thirty"; "Forty"; "Fifty"; "Sixty"; "Seventy"; "Eighty";
   "Ninety"].

Definition teens : list string :=
  ["Ten"; "Eleven"; "Twelve"; "Thirteen"; "Fourteen"; "Fifteen";
   "Sixteen"; "Seventeen"; "Eighteen"; "Nineteen"].

(** ** [convert_below_thousand], the closure inside [number_to_words]

    The only recursive call is on [n % 100], reached when [100 <= n]. *)

Equations? convert_below_thousand (n : Z) : PyResult string
  by wf (Z.to_nat n) lt :=
  convert_below_thousand n with Z.eq_dec n 0 := {
    | left _ => Ok "";
    | right _ with Z_lt_dec n 10 := {
      | left _ => py_index ones n;
      | right _ with Z_lt_dec n 20 := {
        | left _ => py_index teens (n - 10);
        | right _ with Z_lt_dec n 100 := {
          | left _ =>
              t <- py_index tens (n / 10) ;;
              u <- (if negb (n mod 10 =? 0)
                    then o <- py_index ones (n mod 10) ;; Ok (" " ++ o)
                    else Ok "") ;;
              Ok (t ++ u);
          | right _ =>
              h <- py_index ones (n / 100) ;;
              r <- (if negb (n mod 100 =? 0)
                    then w <- convert_below_thousand (n mod 100) ;;
                         Ok (" and " ++ w)
                    else Ok "") ;;
              Ok (h ++ " Hundred" ++ r) } } } }.
Proof.
  assert (0 <= n mod 100 < 100) by (apply Z.mod_pos_bound; lia).
  lia.
Qed.

(** ** [number_to_words] *)

Definition number_to_words (num : Z) : PyResult string :=
  if num =? 0 then Ok "Zero"
  else if num <? 1000 then convert_below_thousand num
  else if num <? 1000000 then
    let thousands := num / 1000 in
    let remainder := num mod 1000 in
    t <- convert_below_thousand thousands ;;
    let result := t ++ " Thousand" in
    if remainder >? 0 then
      r <- convert_below_thousand remainder ;;
      Ok (result ++ " " ++ r)
    else Ok result
  else
    let millions := num / 1000000 in
    let remainder := num mod 1000000 in
    m <- convert_below_thousand millions ;;
    let result := m ++ " Million" in
    if remainder >? 0 then
      if remainder >=? 1000 then
        t <- convert_below_thousand (remainder / 1000) ;;
        let result := result ++ " " ++ t ++ " Thousand" in
        if remainder mod 1000 >? 0 then
          r <- convert_below_thousand (remainder mod 1000) ;;
          Ok (result ++ " " ++ r)
        else Ok result
      else
        r <- convert_below_thousand remainder ;;
        Ok (result ++ " " ++ r)
    else Ok result.


(** ** Python floats: IEEE 754 binary64 *)

Definition prec : Z := 53.
Definition emax : Z := 1024.

Definition float : Type := spec_float.

(** [float(i)] for an integer [i]: the nearest binary64, ties to even;
    CPython raises [OverflowError] when the integer is too large. *)
Definition py_float_of_int (i : Z) : PyResult float :=
  match binary_normalize prec emax i 0 false with
  | S754_infinity _ => Raise OverflowError
  | f => Ok f
  end.

(** [int(x)] for a float [x]: truncation toward zero. *)
Definition py_int (x : float) : PyResult Z :=
  match x with
  | S754_zero _ => Ok 0
  | S754_infinity _ => Raise OverflowError
  | S754_nan => Raise ValueError
  | S754_finite s m e => Ok (cond_Zopp s (Z.shiftl (Zpos m) e))
  end.

(** [round(x)] with one argument: the nearest integer, ties to even. *)
Definition round_half_even (m : positive) (e : Z) : Z :=
  if 0 <=? e then Z.shiftl (Zpos m) e
  else
    let q := Z.shiftl (Zpos m) e in
    let r := Zpos m - Z.shiftl q (- e) in
    match Z.compare (2 * r) (Z.shiftl 1 (- e)) with
    | Lt => q
    | Gt => q + 1
    | Eq => if Z.even q then q else q + 1
    end.

Definition py_round (x : float) : PyResult Z :=
  match x with
  | S754_zero _ => Ok 0
  | S754_infinity _ => Raise OverflowError
  | S754_nan => Raise ValueError
  | S754_finite s m e => Ok (cond_Zopp s (round_half_even m e))
  end.

(** [x - i] and [x * i] with a float on the left and an integer on the
    right: the integer is converted to a float first. *)
Definition py_float_sub_int (x : float) (i : Z) : PyResult float :=
  y <- py_float_of_int i ;; Ok (SFsub prec emax x y).

Definition py_float_mul_int (x : float) (i : Z) : PyResult float :=
  y <- py_float_of_int i ;; Ok (SFmul prec emax x y).

(** ** [price_to_words] *)

Definition price_to_words (price : float) : PyResult string :=
  pounds <- py_int price ;;
  d <- py_float_sub_int price pounds ;;
  c <- py_float_mul_int d 100 ;;
  pence <- py_round c ;;
  w <- number_to_words pounds ;;
  let result := w ++ " Pounds" in
  if pence >? 0 then
    p <- number_to_words pence ;;
    Ok (result ++ " and " ++ p ++ " Pence")
  else Ok result.

(** The binary64 value of a decimal literal [n/d], as [float("...")]
    produces it: the correctly rounded quotient. *)
Definition decimal (n : Z) (d : positive) : float :=
  SFdiv prec emax (binary_normalize prec emax n 0 false)
                  (binary_normalize prec emax (Zpos d) 0 false).


(** ** The lookup reference of the specification for 0..99 *)

Definition ones_word (d : Z) : string :=
  match d with
  | 1 => "One" | 2 => "Two" | 3 => "Three" | 4 => "Four" | 5 => "Five"
  | 6 => "Six" | 7 => "Seven" | 8 => "Eight" | 9 => "Nine"
  | _ => ""
  end.

Definition teen_word (n : Z) : string :=
  match n with
  | 10 => "Ten" | 11 => "Eleven" | 12 => "Twelve" | 13 => "Thirteen"
  | 14 => "Fourteen" | 15 => "Fifteen" | 16 => "Sixteen"
  | 17 => "Seventeen" | 18 => "Eighteen" | 19 => "Nineteen"
  | _ => ""
  end.

Definition tens_word (t : Z) : string :=
  match t with
  | 2 => "Twenty" | 3 => "Thirty" | 4 => "Forty" | 5 => "Fifty"
  | 6 => "Sixty" | 7 => "Seventy" | 8 => "Eighty" | 9 => "Ninety"
  | _ => ""
  end.

Definition words_upto_99 (n : Z) : string :=
  if n =? 0 then "Zero"
  else if n <? 10 then ones_word n
  else if n <? 20 then teen_word n
  else tens_word (n / 10)
       ++ (if n mod 10 =? 0 then "" else " " ++ ones_word (n mod 10)).

(** ** Spacing predicates on the produced strings *)

Definition is_space (c : ascii) : bool := Ascii.eqb c " ".

(** ASCII characters for which Python's [str.isspace] holds. *)
Definition is_whitespace (c : ascii) : bool :=
  let k := nat_of_ascii c in
  (Nat.leb 9 k && Nat.leb k 13) || (Nat.leb 28 k && Nat.leb k 32).

Fixpoint double_space (s : string) : bool :=
  match s with
  | String a (String b _ as t) =>
      (is_space a && is_space b) || double_space t
  | _ => false
  end.

Definition leading_ws (s : string) : bool :=
  match s with
  | String c _ => is_whitespace c
  | EmptyString => false
  end.

Fixpoint trailing_ws (s : string) : bool :=
  match s with
  | EmptyString => false
  | String c EmptyString => is_whitespace c
  | String _ t => trailing_ws t
  end.

(** A phrase: non-empty, single-spaced, no whitespace at either end. *)
Definition phrase (s : string) : bool :=
  negb (String.eqb s "") && negb (double_space s)
  && negb (leading_ws s) && negb (trailing_ws s).

(** ** Bounded checks by evaluation *)

Fixpoint forall_upto (k : nat) (P : Z -> bool) : bool :=
  match k with
  | O => true
  | S k' => P (Z.of_nat k') && forall_upto k' P
  end.

Definition returns {A : Type} (c : PyResult A) (P : A -> bool) : bool :=
  match c with
  | Ok a => P a
  | Raise _ => false
  end.

(** ** Magnitude bound on a binary64 value

    [at_most B s f]: [f] is a zero, or finite with sign [s] and magnitude
    at most the integer [B]. *)

Definition at_most (B : Z) (s : bool) (f : float) : Prop :=
  match f with
  | S754_zero _ => True
  | S754_finite s' m e => s' = s /\ e <= 0 /\ Zpos m <= B * 2 ^ (- e)
  | _ => False
  end.

(** The value [price_to_words] binds to [pence]:
    [round((price - pounds) * 100)]. *)
Definition rounded_hundredths (price : float) (pounds : Z) : PyResult Z :=
  d <- py_float_sub_int price pounds ;;
  c <- py_float_mul_int d 100 ;;
  py_round c.

(** Amounts: non-negative floats (either zero counts) and negative finite
    floats. *)
Definition nonnegative (x : float) : bool :=
  match x with
  | S754_zero _ => true
  | S754_finite s _ _ => negb s
  | _ => false
  end.

Definition negative (x : float) : bool :=
  match x with
  | S754_finite s _ _ => s
  | _ => false
  end.


(** ** [get_contract_text]

    The dictionary literal [contracts] as an association list, and
    [dict.get(key, default)] on it. *)

Definition contracts : list (string * string) :=
  [("1", "Our offer is conditional upon the use of the NR26 Professional Service Short Contract (PSSC).");
   ("2", "Our offer is conditional upon the use of the NEC4 Professional Service Short Contract.");
   ("3", "Our offer is conditional upon the use of the NR3 Contract.");
   ("4", "The proposal has been built on the basis that it will be instructed via the PSR:SOW framework and fall under the associated contractual terms. All fees associated with the use of the framework have been incorporated into the prices presented within this proposal.")].

Fixpoint dict_get (d : list (string * string)) (key default : string)
  : string :=
  match d with
  | [] => default
  | (k, v) :: d' => if String.eqb k key then v else dict_get d' key default
  end.

Definition get_contract_text (contract_type : string) : string :=
  dict_get contracts contract_type "".

(** ** Console input and output

    The console is the list of lines still to be typed and the text
    printed so far.  [input()] takes the next line and raises [EOFError]
    when there is none; [print(s)] appends [s] and a newline. *)

Record World : Type := { stdin : list string; stdout : string }.

Inductive IOResult (A : Type) : Type :=
| Returns (a : A) (w : World)
| EOFError (w : World).

Arguments Returns {A} a w.
Arguments EOFError {A} w.

Definition newline : string := String "010" "".

Definition py_print (s : string) (w : World) : World :=
  {| stdin := stdin w; stdout := stdout w ++ s ++ newline |}.

(** ** [get_multiline_input]

    The [while True] loop: [pending] is the input not yet read, [lines] the
    list built so far. *)

Fixpoint multiline_loop (pending : list string) (out : string)
    (lines : list string) : IOResult (list string) :=
  match pending with
  | [] => EOFError {| stdin := []; stdout := out |}
  | line :: rest =>
      if String.eqb line ""
         && match lines with
            | [] => false
            | _ :: _ => String.eqb (last lines "") ""
            end
      then Returns (removelast lines) {| stdin := rest; stdout := out |}
      else multiline_loop rest out (lines ++ [line])%list
  end.

Definition get_multiline_input (prompt : string) (w : World)
  : IOResult string :=
  let w := py_print (newline ++ prompt) w in
  let w := py_print "(Press Enter twice when done)" w in
  match multiline_loop (stdin w) (stdout w) [] with
  | Returns lines w' => Returns (String.concat newline lines) w'
  | EOFError w' => EOFError w'
  end.

(** A block of typed lines that the loop hands back unchanged: no two
    empty lines in a row, and no empty line at the end. *)
Fixpoint no_blank_pair (l : list string) : bool :=
  match l with
  | a :: (b :: _) as t =>
      negb (String.eqb a "" && String.eqb b "") && no_blank_pair t
  | _ => true
  end.

Definition typed_block (l : list string) : Prop :=
  no_blank_pair l = true /\ (l = [] \/ last l ""%string <> ""%string).

(** Two empty lines meet where [l] ends and [r] begins. *)
Definition blank_seam (l : list string) (x : string) : bool :=
  String.eqb x ""
  && match l with
     | [] => false
     | _ :: _ => String.eqb (last l "") ""
     end.

(** ** Reading a result back: words as token lists

    [number_tokens n] lists the words [number_to_words n] writes, and
    [words_to_number] reads a written amount back; both serve to show that
    different numbers are never written alike. *)

Definition group_tokens (g : Z) : list string :=
  let h := g / 100 in
  let r := g mod 100 in
  ((if h =? 0 then [] else [ones_word h; "Hundred"%string])
   ++ (if negb (h =? 0) && negb (r =? 0) then ["and"%string] else [])
   ++ (if r =? 0 then []
       else if r <? 10 then [ones_word r]
       else if r <? 20 then [teen_word r]
       else tens_word (r / 10)
            :: (if r mod 10 =? 0 then [] else [ones_word (r mod 10)])))%list.

Definition tier_tokens (g : Z) (name : string) : list string :=
  if g =? 0 then [] else (group_tokens g ++ [name])%list.

Definition number_tokens (n : Z) : list string :=
  if n =? 0 then ["Zero"%string]
  else (tier_tokens (n / 1000000) "Million"
        ++ tier_tokens (n / 1000 mod 1000) "Thousand"
        ++ group_tokens (n mod 1000))%list.

Definition word_values : list (string * Z) :=
  [("Zero", 0); ("One", 1); ("Two", 2); ("Three", 3); ("Four", 4);
   ("Five", 5); ("Six", 6); ("Seven", 7); ("Eight", 8); ("Nine", 9);
   ("Ten", 10); ("Eleven", 11); ("Twelve", 12); ("Thirteen", 13);
   ("Fourteen", 14); ("Fifteen", 15); ("Sixteen", 16); ("Seventeen", 17);
   ("Eighteen", 18); ("Nineteen", 19); ("Twenty", 20); ("Thirty", 30);
   ("Forty", 40); ("Fifty", 50); ("Sixty", 60); ("Seventy", 70);
   ("Eighty", 80); ("Ninety", 90)]%string.

Fixpoint word_value_in (t : list (string * Z)) (w : string) : Z :=
  match t with
  | [] => 0
  | (k, v) :: t' => if String.eqb k w then v else word_value_in t' w
  end.

Definition word_value : string -> Z := word_value_in word_values.

(** One word read: [(total, current)] are the value of the closed tiers
    and of the tier being read. *)
Definition read_word (st : Z * Z) (w : string) : Z * Z :=
  let '(total, current) := st in
  if String.eqb w "Million" then (total + current * 1000000, 0)
  else if String.eqb w "Thousand" then (total + current * 1000, 0)
  else if String.eqb w "Hundred" then (total, current * 100)
  else if String.eqb w "and" then (total, current)
  else (total, current + word_value w).

Definition read_words (ws : list string) : Z :=
  let '(total, current) := fold_left read_word ws (0, 0) in
  total + current.

Fixpoint split_on_space (s : string) : list string :=
  match s with
  | EmptyString => [EmptyString]
  | String c s' =>
      if is_space c then EmptyString :: split_on_space s'
      else match split_on_space s' with
           | [] => [String c EmptyString]
           | w :: ws => String c w :: ws
           end
  end.

Definition words_to_number (s : string) : Z :=
  read_words (split_on_space s).

(** Words: non-empty strings of ASCII letters. *)
Definition is_letter (c : ascii) : bool :=
  let k := nat_of_ascii c in
  (Nat.leb 65 k && Nat.leb k 90) || (Nat.leb 97 k && Nat.leb k 122).

Fixpoint all_letters (s : string) : bool :=
  match s with
  | EmptyString => true
  | String c s' => is_letter c && all_letters s'
  end.

Definition is_word (s : string) : bool :=
  negb (String.eqb s "") && all_letters s.

(** A word of a group: any word but the tier names and the unit names. *)
Definition unit_name (w : string) : bool :=
  String.eqb w "Pounds" || String.eqb w "Pence".

Definition group_word (w : string) : bool :=
  is_word w && negb (unit_name w) && negb (String.eqb w "Million")
  && negb (String.eqb w "Thousand").

(** The words [price_to_words] writes for [pounds] and [pence]. *)
Definition price_tokens (pounds pence : Z) : list string :=
  (number_tokens pounds
   ++ "Pounds"%string
      :: (if pence >? 0
          then "and"%string :: number_tokens pence ++ ["Pence"%string]
          else []))%list.

Definition string_list_eqb (a b : list string) : bool :=
  if list_eq_dec string_dec a b then true else false.

(** Every "and" in [ws] comes directly after "Hundred"; [prev] is the word
    before [ws]. *)
Fixpoint and_after_hundred (prev : string) (ws : list string) : bool :=
  match ws with
  | [] => true
  | w :: r =>
      (negb (String.eqb w "and") || String.eqb prev "Hundred")
      && and_after_hundred w r
  end.

(** * Properties *)

(** ** Sample evaluations *)

Example number_to_words_0 : number_to_words 0 = Ok "Zero".
Proof. reflexivity. Qed.

Example number_to_words_1234 :
  number_to_words 1234 = Ok "One Thousand Two Hundred and Thirty Four".
Proof. vm_compute. reflexivity. Qed.

Example number_to_words_2500000 :
  number_to_words 2500000 = Ok "Two Million Five Hundred Thousand".
Proof. vm_compute. reflexivity. Qed.

Example decimal_1_995 :
  decimal 1995 1000 = S754_finite false 8984681256604140 (-52).
Proof. vm_compute. reflexivity. Qed.

Example decimal_0_99 :
  decimal 99 100 = S754_finite false 8917127262193582 (-53).
Proof. vm_compute. reflexivity. Qed.

Example price_to_words_1234_50 :
  price_to_words (decimal 123450 100)
  = Ok "One Thousand Two Hundred and Thirty Four Pounds and Fifty Pence".
Proof. vm_compute. reflexivity. Qed.

Example price_to_words_5_00 :
  price_to_words (decimal 500 100) = Ok "Five Pounds".
Proof. vm_compute. reflexivity. Qed.

Example price_to_words_0_99 :
  price_to_words (decimal 99 100) = Ok "Zero Pounds and Ninety Nine Pence".
Proof. vm_compute. reflexivity. Qed.

Example price_to_words_1_995 :
  price_to_words (decimal 1995 1000) = Ok "One Pounds and One Hundred Pence".
Proof. vm_compute. reflexivity. Qed.

Example price_to_words_m1_5 :
  price_to_words (decimal (-15) 10) = Ok "Nine Pounds".
Proof. vm_compute. reflexivity. Qed.

Example py_int_truncates :
  py_int (decimal 199 100) = Ok 1 /\ py_int (decimal (-199) 100) = Ok (-1).
Proof. split; vm_compute; reflexivity. Qed.

Example py_round_ties_to_even :
  py_round (decimal 5 10) = Ok 0
  /\ py_round (decimal 15 10) = Ok 2
  /\ py_round (decimal 25 10) = Ok 2
  /\ py_round (decimal (-35) 10) = Ok (-4)
  /\ py_round (decimal 251 100) = Ok 3.
Proof. repeat split; vm_compute; reflexivity. Qed.

Example py_index_from_the_end :
  py_index ones (-1) = Ok "Nine"
  /\ py_index ones (-10) = Ok ""
  /\ py_index ones (-11) = Raise IndexError
  /\ py_index ones 10 = Raise IndexError.
Proof. repeat split; reflexivity. Qed.


(** ** The result monad and bounded checks *)

Lemma returns_inv {A : Type} (c : PyResult A) (P : A -> bool) :
  returns c P = true -> exists a, c = Ok a /\ P a = true.
Proof.
  destruct c as [a | e]; simpl; intros H.
  - exists a. split; [reflexivity | exact H].
  - discriminate H.
Qed.

Lemma forall_upto_spec (k : nat) (P : Z -> bool) :
  forall_upto k P = true ->
  forall n, 0 <= n < Z.of_nat k -> P n = true.
Proof.
  induction k as [| k IH]; simpl; intros H n Hn.
  - lia.
  - apply andb_true_iff in H. destruct H as [Hk Hrest].
    destruct (Z.eq_dec n (Z.of_nat k)) as [-> | Hne].
    + exact Hk.
    + apply IH; [exact Hrest | lia].
Qed.

(** ** Indexing the tables *)

Lemma py_index_beyond {A : Type} (l : list A) (i : Z) :
  Z.of_nat (List.length l) <= i -> py_index l i = Raise IndexError.
Proof.
  intros H. unfold py_index.
  destruct (Z.ltb_spec i 0) as [Hneg | _]; [lia |].
  destruct (Z.leb_spec (Z.of_nat (List.length l)) i) as [_ | Hlt]; [| lia].
  rewrite orb_true_r. reflexivity.
Qed.

Lemma py_index_below {A : Type} (l : list A) (i : Z) :
  i < - Z.of_nat (List.length l) -> py_index l i = Raise IndexError.
Proof.
  intros H. unfold py_index.
  destruct (Z.ltb_spec i 0) as [_ | Hpos]; [| lia].
  destruct (Z.ltb_spec (i + Z.of_nat (List.length l)) 0) as [_ | Hge];
    [reflexivity | lia].
Qed.

Lemma py_index_ones (d : Z) :
  1 <= d <= 9 -> py_index ones d = Ok (ones_word d).
Proof.
  intros H.
  assert (d = 1 \/ d = 2 \/ d = 3 \/ d = 4 \/ d = 5 \/ d = 6 \/ d = 7
          \/ d = 8 \/ d = 9) as Hd by lia.
  repeat (destruct Hd as [-> | Hd]; [reflexivity |]).
  subst d. reflexivity.
Qed.

Lemma py_index_ones_negative (n : Z) :
  -10 <= n <= -1 ->
  py_index ones n = Ok (nth (Z.to_nat (n + 10)) ones "").
Proof.
  intros H.
  assert (n = -1 \/ n = -2 \/ n = -3 \/ n = -4 \/ n = -5 \/ n = -6
          \/ n = -7 \/ n = -8 \/ n = -9 \/ n = -10) as Hn by lia.
  repeat (destruct Hn as [-> | Hn]; [reflexivity |]).
  subst n. reflexivity.
Qed.

(** ** [convert_below_thousand] branch by branch *)

Lemma convert_below_thousand_eq (n : Z) :
  convert_below_thousand n =
  if n =? 0 then Ok ""
  else if n <? 10 then py_index ones n
  else if n <? 20 then py_index teens (n - 10)
  else if n <? 100 then
    t <- py_index tens (n / 10) ;;
    u <- (if negb (n mod 10 =? 0)
          then o <- py_index ones (n mod 10) ;; Ok (" " ++ o)%string
          else Ok "") ;;
    Ok (t ++ u)%string
  else
    h <- py_index ones (n / 100) ;;
    r <- (if negb (n mod 100 =? 0)
          then w <- convert_below_thousand (n mod 100) ;;
               Ok (" and " ++ w)%string
          else Ok "") ;;
    Ok (h ++ " Hundred" ++ r)%string.
Proof.
  funelim (convert_below_thousand n);
    destruct (Z.eqb_spec n 0); try lia;
    destruct (Z.ltb_spec n 10); try lia;
    destruct (Z.ltb_spec n 20); try lia;
    destruct (Z.ltb_spec n 100); try lia;
    reflexivity.
Qed.

Lemma number_to_words_below_thousand (n : Z) :
  n <> 0 -> n < 1000 -> number_to_words n = convert_below_thousand n.
Proof.
  intros Hz Hlt. unfold number_to_words.
  destruct (Z.eqb_spec n 0); [contradiction |].
  destruct (Z.ltb_spec n 1000); [reflexivity | lia].
Qed.

Lemma convert_below_thousand_hundreds (n : Z) :
  100 <= n <= 999 ->
  convert_below_thousand n =
    r <- (if negb (n mod 100 =? 0)
          then w <- convert_below_thousand (n mod 100) ;;
               Ok (" and " ++ w)%string
          else Ok "") ;;
    Ok (ones_word (n / 100) ++ " Hundred" ++ r)%string.
Proof.
  intros H. rewrite convert_below_thousand_eq.
  destruct (Z.eqb_spec n 0); [lia |].
  destruct (Z.ltb_spec n 10); [lia |].
  destruct (Z.ltb_spec n 20); [lia |].
  destruct (Z.ltb_spec n 100); [lia |].
  assert (1 <= n / 100 <= 9) as Hd.
  { split.
    - apply Z.div_le_lower_bound; lia.
    - apply Z.lt_succ_r, Z.div_lt_upper_bound; lia. }
  rewrite (py_index_ones _ Hd). reflexivity.
Qed.

(** Every value in 1..999 is rendered, and rendered as a phrase. *)
Lemma convert_below_thousand_phrase (n : Z) :
  1 <= n <= 999 ->
  exists s, convert_below_thousand n = Ok s /\ phrase s = true.
Proof.
  intros H.
  assert (forall_upto 1000
            (fun k => (k =? 0) || returns (convert_below_thousand k) phrase)
          = true) as Hall by (vm_compute; reflexivity).
  pose proof (forall_upto_spec _ _ Hall n ltac:(lia)) as Hn.
  simpl in Hn. destruct (Z.eqb_spec n 0); [lia |].
  apply returns_inv. exact Hn.
Qed.

Lemma number_to_words_lookup (n : Z) :
  0 <= n <= 99 -> number_to_words n = Ok (words_upto_99 n).
Proof.
  intros H.
  assert (forall_upto 100
            (fun k => returns (number_to_words k)
                        (String.eqb (words_upto_99 k)))
          = true) as Hall by (vm_compute; reflexivity).
  pose proof (forall_upto_spec _ _ Hall n ltac:(lia)) as Hn.
  apply returns_inv in Hn. destruct Hn as [s [Hs Heq]].
  apply String.eqb_eq in Heq. rewrite Hs, Heq. reflexivity.
Qed.

(** ** Joining phrases *)

Lemma is_space_whitespace (c : ascii) :
  is_space c = true -> is_whitespace c = true.
Proof.
  unfold is_space. intros H. apply Ascii.eqb_eq in H. subst c. reflexivity.
Qed.

Lemma phrase_inv (s : string) :
  phrase s = true ->
  s <> ""%string /\ double_space s = false /\ leading_ws s = false
  /\ trailing_ws s = false.
Proof.
  unfold phrase. intros H.
  repeat (apply andb_true_iff in H; destruct H as [H ?]).
  repeat match goal with
    | X : negb _ = true |- _ => apply negb_true_iff in X
    end.
  repeat split; try assumption.
  intros ->. discriminate.
Qed.

Lemma phrase_intro (s : string) :
  s <> ""%string -> double_space s = false -> leading_ws s = false ->
  trailing_ws s = false -> phrase s = true.
Proof.
  intros Hne Hd Hl Ht. unfold phrase. rewrite Hd, Hl, Ht.
  destruct s; [contradiction | reflexivity].
Qed.

Lemma trailing_ws_join (a b : string) :
  b <> ""%string -> trailing_ws (a ++ b) = trailing_ws b.
Proof.
  intros Hb. induction a as [| c a IH]; simpl; [reflexivity |].
  rewrite <- IH. destruct (a ++ b)%string eqn:E; [| reflexivity].
  destruct a; simpl in E; [contradiction | discriminate].
Qed.

Lemma double_space_cons (a b : ascii) (t : string) :
  double_space (String a (String b t))
  = (is_space a && is_space b) || double_space (String b t).
Proof. reflexivity. Qed.

Lemma double_space_join (a b : string) :
  a <> ""%string -> double_space a = false -> trailing_ws a = false ->
  double_space b = false -> leading_ws b = false -> b <> ""%string ->
  double_space (a ++ " " ++ b) = false.
Proof.
  intros Ha Hda Hta Hdb Hlb Hb.
  induction a as [| c a IH]; [contradiction |].
  destruct a as [| c' a].
  - simpl in Hta.
    change (double_space (String c (String " " b)) = false).
    rewrite double_space_cons.
    destruct (is_space c) eqn:Ec.
    + apply is_space_whitespace in Ec. congruence.
    + destruct b as [| d b]; [contradiction |].
      simpl in Hlb. rewrite double_space_cons.
      destruct (is_space d) eqn:Ed.
      * apply is_space_whitespace in Ed. congruence.
      * rewrite andb_false_r. exact Hdb.
  - change (double_space (String c (String c' (a ++ " " ++ b))) = false).
    rewrite double_space_cons in Hda |- *.
    apply orb_false_iff in Hda. destruct Hda as [H1 H2].
    rewrite H1. apply IH; [discriminate | exact H2 | exact Hta].
Qed.

Lemma phrase_join (a b : string) :
  phrase a = true -> phrase b = true -> phrase (a ++ " " ++ b) = true.
Proof.
  intros Ha Hb.
  apply phrase_inv in Ha. destruct Ha as (Hna & Hda & Hla & Hta).
  apply phrase_inv in Hb. destruct Hb as (Hnb & Hdb & Hlb & Htb).
  apply phrase_intro.
  - destruct a; [contradiction | discriminate].
  - apply double_space_join; assumption.
  - destruct a; [contradiction | exact Hla].
  - rewrite trailing_ws_join.
    + change (" " ++ b)%string with (String " " b).
      destruct b; [contradiction | exact Htb].
    + discriminate.
Qed.

Lemma string_app_assoc (a b c : string) :
  ((a ++ b) ++ c)%string = (a ++ b ++ c)%string.
Proof.
  induction a as [| x a IH]; simpl; [reflexivity | now rewrite IH].
Qed.

(** ** [number_to_words] tier by tier *)

Lemma number_to_words_thousands (n : Z) :
  1000 <= n < 1000000 ->
  number_to_words n =
    t <- convert_below_thousand (n / 1000) ;;
    if n mod 1000 >? 0 then
      r <- convert_below_thousand (n mod 1000) ;;
      Ok (t ++ " Thousand" ++ " " ++ r)%string
    else Ok (t ++ " Thousand")%string.
Proof.
  intros H. unfold number_to_words.
  destruct (Z.eqb_spec n 0); [lia |].
  destruct (Z.ltb_spec n 1000); [lia |].
  destruct (Z.ltb_spec n 1000000); [| lia].
  destruct (convert_below_thousand (n / 1000)) as [t | e]; simpl;
    [| reflexivity].
  destruct (n mod 1000 >? 0); [| reflexivity].
  destruct (convert_below_thousand (n mod 1000)) as [r | e]; simpl;
    [| reflexivity].
  now rewrite string_app_assoc.
Qed.

Lemma number_to_words_millions (n : Z) :
  1000000 <= n ->
  number_to_words n =
    m <- convert_below_thousand (n / 1000000) ;;
    let r := n mod 1000000 in
    if r >? 0 then
      if r >=? 1000 then
        t <- convert_below_thousand (r / 1000) ;;
        if r mod 1000 >? 0 then
          w <- convert_below_thousand (r mod 1000) ;;
          Ok (m ++ " Million" ++ " " ++ t ++ " Thousand" ++ " " ++ w)%string
        else Ok (m ++ " Million" ++ " " ++ t ++ " Thousand")%string
      else
        w <- convert_below_thousand r ;;
        Ok (m ++ " Million" ++ " " ++ w)%string
    else Ok (m ++ " Million")%string.
Proof.
  intros H. unfold number_to_words.
  destruct (Z.eqb_spec n 0); [lia |].
  destruct (Z.ltb_spec n 1000); [lia |].
  destruct (Z.ltb_spec n 1000000); [lia |].
  destruct (convert_below_thousand (n / 1000000)) as [m | e]; cbn [bind];
    [| reflexivity].
  cbv zeta.
  destruct (n mod 1000000 >? 0); [| reflexivity].
  destruct (n mod 1000000 >=? 1000).
  - destruct (convert_below_thousand (n mod 1000000 / 1000)) as [t | e];
      cbn [bind]; [| reflexivity].
    destruct (n mod 1000000 mod 1000 >? 0).
    + destruct (convert_below_thousand (n mod 1000000 mod 1000))
        as [w | e]; cbn [bind]; [| reflexivity].
      now rewrite !string_app_assoc.
    + now rewrite !string_app_assoc.
  - destruct (convert_below_thousand (n mod 1000000)) as [w | e]; cbn [bind];
      [| reflexivity].
    now rewrite !string_app_assoc.
Qed.

(** From one thousand million on, the millions part no longer fits the
    ones table. *)
Lemma number_to_words_billion (n : Z) :
  1000000000 <= n -> number_to_words n = Raise IndexError.
Proof.
  intros H. rewrite number_to_words_millions by lia.
  assert (1000 <= n / 1000000) as Hm by (apply Z.div_le_lower_bound; lia).
  assert (10 <= n / 1000000 / 100) as Hh by (apply Z.div_le_lower_bound; lia).
  rewrite convert_below_thousand_eq.
  destruct (Z.eqb_spec (n / 1000000) 0); [lia |].
  destruct (Z.ltb_spec (n / 1000000) 10); [lia |].
  destruct (Z.ltb_spec (n / 1000000) 20); [lia |].
  destruct (Z.ltb_spec (n / 1000000) 100); [lia |].
  rewrite py_index_beyond by (simpl; lia). reflexivity.
Qed.

(** Negative arguments reach [ones[n]] directly. *)
Lemma number_to_words_negative (n : Z) :
  n < 0 -> number_to_words n = py_index ones n.
Proof.
  intros H. rewrite number_to_words_below_thousand by lia.
  rewrite convert_below_thousand_eq.
  destruct (Z.eqb_spec n 0); [lia |].
  destruct (Z.ltb_spec n 10); [reflexivity | lia].
Qed.

(** Below one thousand million every non-negative argument is rendered,
    and rendered as a phrase. *)
Lemma number_to_words_phrase (n : Z) :
  0 <= n < 1000000000 ->
  exists s, number_to_words n = Ok s /\ phrase s = true.
Proof.
  intros H.
  destruct (Z.eq_dec n 0) as [-> | Hz].
  { exists "Zero"%string. split; reflexivity. }
  destruct (Z_lt_dec n 1000) as [H1 | H1].
  { rewrite number_to_words_below_thousand by lia.
    apply convert_below_thousand_phrase. lia. }
  assert (forall k d, 0 < d -> d <= k < 1000 * d -> 1 <= k / d <= 999) as Hq.
  { intros k d Hd Hk. split.
    - apply Z.div_le_lower_bound; lia.
    - apply Z.lt_succ_r, Z.div_lt_upper_bound; lia. }
  assert (forall k, 0 <= k mod 1000 < 1000) as Hr
    by (intros k; apply Z.mod_pos_bound; lia).
  destruct (Z_lt_dec n 1000000) as [H2 | H2].
  { rewrite number_to_words_thousands by lia.
    destruct (convert_below_thousand_phrase (n / 1000)
                ltac:(apply Hq; lia)) as [t [Ht Pt]].
    rewrite Ht. cbn [bind].
    destruct (Z.gtb_spec (n mod 1000) 0).
    - destruct (convert_below_thousand_phrase (n mod 1000)
                  ltac:(specialize (Hr n); lia)) as [r [Hrr Pr]].
      rewrite Hrr. cbn [bind]. eexists. split; [reflexivity |].
      change (phrase (t ++ " " ++ "Thousand" ++ " " ++ r) = true).
      auto using phrase_join.
    - eexists. split; [reflexivity |].
      change (phrase (t ++ " " ++ "Thousand") = true).
      auto using phrase_join. }
  rewrite number_to_words_millions by lia.
  destruct (convert_below_thousand_phrase (n / 1000000)
              ltac:(apply Hq; lia)) as [m [Hm Pm]].
  rewrite Hm. cbn [bind]. cbv zeta.
  assert (0 <= n mod 1000000 < 1000000) as Hrem
    by (apply Z.mod_pos_bound; lia).
  destruct (Z.gtb_spec (n mod 1000000) 0).
  - destruct (Z.geb_spec (n mod 1000000) 1000).
    + destruct (convert_below_thousand_phrase (n mod 1000000 / 1000)
                  ltac:(apply Hq; lia)) as [t [Ht Pt]].
      rewrite Ht. cbn [bind].
      destruct (Z.gtb_spec (n mod 1000000 mod 1000) 0).
      * destruct (convert_below_thousand_phrase (n mod 1000000 mod 1000)
                    ltac:(specialize (Hr (n mod 1000000)); lia))
          as [w [Hw Pw]].
        rewrite Hw. cbn [bind]. eexists. split; [reflexivity |].
        change (phrase (m ++ " " ++ "Million" ++ " " ++ t ++ " "
                          ++ "Thousand" ++ " " ++ w) = true).
        auto 6 using phrase_join.
      * eexists. split; [reflexivity |].
        change (phrase (m ++ " " ++ "Million" ++ " " ++ t ++ " "
                          ++ "Thousand") = true).
        auto 6 using phrase_join.
    + destruct (convert_below_thousand_phrase (n mod 1000000)
                  ltac:(lia)) as [w [Hw Pw]].
      rewrite Hw. cbn [bind]. eexists. split; [reflexivity |].
      change (phrase (m ++ " " ++ "Million" ++ " " ++ w) = true).
      auto using phrase_join.
  - eexists. split; [reflexivity |].
    change (phrase (m ++ " " ++ "Million") = true).
    auto using phrase_join.
Qed.

Lemma number_to_words_returns (n : Z) :
  0 <= n < 1000000000 -> exists s, number_to_words n = Ok s.
Proof.
  intros H. destruct (number_to_words_phrase n H) as [s [Hs _]]. eauto.
Qed.

(** ** Binary64 arithmetic: shifting and rounding

    The facts about [SpecFloat]'s rounding that [price_to_words] needs:
    what a right shift leaves of the mantissa, when it is exact, and that
    rounding to nearest never crosses an integer bound that lies on the
    grid of the result. *)

Lemma iter_pos_nat {A : Type} (f : A -> A) (p : positive) (x : A) :
  iter_pos f p x = Nat.iter (Pos.to_nat p) f x.
Proof.
  revert x. induction p as [p IH | p IH |]; intros x; cbn [iter_pos].
  - rewrite !IH, Pos2Nat.inj_xI.
    replace (S (2 * Pos.to_nat p)) with (Pos.to_nat p + S (Pos.to_nat p))%nat
      by lia.
    rewrite Nat.iter_add, Nat.iter_succ_r. reflexivity.
  - rewrite !IH, Pos2Nat.inj_xO.
    replace (2 * Pos.to_nat p)%nat with (Pos.to_nat p + Pos.to_nat p)%nat
      by lia.
    rewrite Nat.iter_add. reflexivity.
  - reflexivity.
Qed.

Lemma shr_1_m (mrs : shr_record) :
  0 <= shr_m mrs -> shr_m (shr_1 mrs) = shr_m mrs / 2.
Proof.
  destruct mrs as [m r s]. cbn [shr_m]. intros H.
  rewrite <- Z.div2_div.
  destruct m as [| [p | p |] |]; try reflexivity. lia.
Qed.

Lemma shr_iter_m (k : nat) (mrs : shr_record) :
  0 <= shr_m mrs ->
  shr_m (Nat.iter k shr_1 mrs) = shr_m mrs / 2 ^ Z.of_nat k.
Proof.
  intros H. induction k as [| k IH].
  - simpl. now rewrite Z.div_1_r.
  - rewrite Nat.iter_succ, shr_1_m; rewrite IH.
    + rewrite Z.div_div by lia.
      rewrite Nat2Z.inj_succ, Z.pow_succ_r by lia.
      f_equal. lia.
    + apply Z.div_pos; lia.
Qed.

Lemma shr_iter_exact (k : nat) (m : Z) :
  0 <= m ->
  Nat.iter k shr_1 (Build_shr_record (m * 2 ^ Z.of_nat k) false false)
  = Build_shr_record m false false.
Proof.
  intros H. induction k as [| k IH].
  - simpl. now rewrite Z.mul_1_r.
  - rewrite Nat.iter_succ_r, Nat2Z.inj_succ, Z.pow_succ_r by lia.
    replace (m * (2 * 2 ^ Z.of_nat k)) with (2 * (m * 2 ^ Z.of_nat k)) by lia.
    assert (0 <= m * 2 ^ Z.of_nat k) as Hp by lia.
    destruct (m * 2 ^ Z.of_nat k) as [| p | p] eqn:E; [| | lia].
    + cbn [Z.mul shr_1 orb]. exact IH.
    + cbn [Z.mul Pos.mul shr_1 orb]. exact IH.
Qed.

Lemma shr_none (mrs : shr_record) (e n : Z) :
  n <= 0 -> shr mrs e n = (mrs, e).
Proof.
  intros H. destruct n as [| p | p]; try reflexivity. lia.
Qed.

Lemma shr_some (mrs : shr_record) (e n : Z) :
  0 < n ->
  shr mrs e n = (Nat.iter (Z.to_nat n) shr_1 mrs, e + n).
Proof.
  intros H. destruct n as [| p | p]; try lia.
  cbn [shr]. rewrite iter_pos_nat. reflexivity.
Qed.

Lemma shr_m_spec (mrs : shr_record) (e n : Z) :
  0 <= shr_m mrs ->
  shr_m (fst (shr mrs e n)) = shr_m mrs / 2 ^ Z.max 0 n
  /\ snd (shr mrs e n) = e + Z.max 0 n.
Proof.
  intros H. destruct (Z_le_gt_dec n 0) as [Hn | Hn].
  - rewrite shr_none by exact Hn. cbn [fst snd].
    replace (Z.max 0 n) with 0 by lia.
    rewrite Z.div_1_r. split; [reflexivity | lia].
  - rewrite shr_some by lia. cbn [fst snd].
    replace (Z.max 0 n) with n by lia.
    rewrite shr_iter_m by exact H. rewrite Z2Nat.id by lia.
    split; reflexivity.
Qed.

Lemma shr_exact (m e n : Z) :
  0 <= m -> 0 <= n ->
  shr (Build_shr_record (m * 2 ^ n) false false) e n
  = (Build_shr_record m false false, e + n).
Proof.
  intros Hm Hn. destruct (Z.eq_dec n 0) as [-> | Hz].
  - rewrite shr_none by lia. rewrite Z.mul_1_r, Z.add_0_r. reflexivity.
  - rewrite shr_some by lia.
    pose proof (shr_iter_exact (Z.to_nat n) m Hm) as Hit.
    rewrite Z2Nat.id in Hit by lia. rewrite Hit. reflexivity.
Qed.

(** *** Number of binary digits *)

Lemma digits2_pos_size (p : positive) : digits2_pos p = Pos.size p.
Proof. induction p; simpl; congruence. Qed.

Lemma Zdigits2_log2 (p : positive) :
  Zpos (digits2_pos p) = Z.log2 (Zpos p) + 1.
Proof.
  rewrite digits2_pos_size.
  destruct p; simpl; rewrite ?Pos.add_1_r; reflexivity.
Qed.

Lemma digits_upper (p : positive) (k : Z) :
  Zpos p < 2 ^ k -> Zpos (digits2_pos p) <= k.
Proof.
  intros H. rewrite Zdigits2_log2.
  assert (0 <= k) as Hk.
  { destruct (Z_lt_dec k 0) as [Hn | ]; [| lia].
    rewrite Z.pow_neg_r in H by exact Hn. lia. }
  apply Z.log2_lt_pow2 in H; lia.
Qed.

Lemma digits_bounds (p : positive) :
  2 ^ (Zpos (digits2_pos p) - 1) <= Zpos p < 2 ^ Zpos (digits2_pos p).
Proof.
  rewrite Zdigits2_log2.
  replace (Z.log2 (Zpos p) + 1 - 1) with (Z.log2 (Zpos p)) by lia.
  pose proof (Z.log2_spec (Zpos p) ltac:(lia)) as H.
  unfold Z.succ in H. exact H.
Qed.

Lemma fexp_eq (z : Z) : fexp prec emax z = Z.max (z - 53) (-1074).
Proof. reflexivity. Qed.

(** *** Rounding to nearest stays below a bound on the grid *)

Lemma round_nearest_even_range (m : Z) (l : location) :
  m <= round_nearest_even m l <= m + 1.
Proof.
  destruct l as [| [ | | ]]; cbn [round_nearest_even]; try lia.
  destruct (Z.even m); lia.
Qed.

Lemma fexp_nonpos (B x e : Z) :
  1 <= B <= 2 ^ 52 -> e <= 0 -> 0 <= x <= B * 2 ^ (- e) ->
  fexp prec emax (Zdigits2 x + e) <= 0.
Proof.
  intros HB He Hx. rewrite fexp_eq.
  destruct x as [| p | p]; [cbn [Zdigits2]; lia | | lia].
  cbn [Zdigits2].
  assert (Zpos (digits2_pos p) <= 53 - e); [| lia].
  apply digits_upper.
  replace (53 - e) with (52 + 1 + - e) by lia.
  rewrite !Z.pow_add_r by lia.
  assert (0 < 2 ^ (- e)) by (apply Z.pow_pos_nonneg; lia).
  nia.
Qed.

Lemma shift_keeps_bound (B x e n : Z) :
  0 <= n -> e + n <= 0 -> 0 <= x <= B * 2 ^ (- e) ->
  0 <= x / 2 ^ n <= B * 2 ^ (- (e + n)).
Proof.
  intros Hn He Hx.
  assert (0 < 2 ^ n) as Hp by (apply Z.pow_pos_nonneg; lia).
  assert (2 ^ (- e) = 2 ^ (- (e + n)) * 2 ^ n) as Hsplit.
  { rewrite <- Z.pow_add_r by lia. f_equal. lia. }
  split.
  - apply Z.div_pos; lia.
  - apply Z.div_le_upper_bound; [exact Hp |].
    rewrite Hsplit in Hx. lia.
Qed.

Lemma binary_round_aux_at_most (B : Z) (s : bool) (M : positive) (E : Z) :
  1 <= B <= 2 ^ 52 -> E <= 0 -> Zpos M <= B * 2 ^ (- E) ->
  at_most B s (binary_round_aux prec emax s (Zpos M) E loc_Exact).
Proof.
  intros HB HE HM.
  unfold binary_round_aux, shr_fexp. cbn [shr_record_of_loc].
  pose proof (fexp_nonpos B (Zpos M) E HB HE ltac:(lia)) as Hf1.
  set (j1 := fexp prec emax (Zdigits2 (Zpos M) + E) - E).
  set (n1 := Z.max 0 j1).
  assert (E + n1 <= 0) as He1 by (subst n1 j1; lia).
  (* first shift and the rounding step *)
  assert (exists mrs',
             shr (Build_shr_record (Zpos M) false false) E j1
             = (mrs', E + n1)
             /\ 0 <= round_nearest_even (shr_m mrs') (loc_of_shr_record mrs')
                  <= B * 2 ^ (- (E + n1))) as (mrs' & Hshr & Hx).
  { destruct (Z.eq_dec (Zpos M) (B * 2 ^ (- (E + n1)) * 2 ^ n1)) as [Heq | Hne].
    - exists (Build_shr_record (B * 2 ^ (- (E + n1))) false false).
      assert (0 <= B * 2 ^ (- (E + n1))) as Hnn
        by (apply Z.mul_nonneg_nonneg; [lia | apply Z.pow_nonneg; lia]).
      destruct (Z_le_gt_dec j1 0) as [Hj | Hj].
      + replace n1 with 0 in * by (subst n1; lia).
        rewrite shr_none by exact Hj.
        rewrite Z.mul_1_r in Heq. rewrite <- Heq, Z.add_0_r.
        cbn [shr_m loc_of_shr_record round_nearest_even].
        rewrite Z.add_0_r in Heq. split; [reflexivity | lia].
      + replace n1 with j1 in * by (subst n1; lia).
        rewrite Heq, shr_exact by lia.
        cbn [shr_m loc_of_shr_record round_nearest_even].
        split; [reflexivity | lia].
    - pose proof (shr_m_spec (Build_shr_record (Zpos M) false false) E j1
                    ltac:(cbn; lia)) as [Hm He].
      fold n1 in Hm, He. cbn [shr_m] in Hm.
      destruct (shr (Build_shr_record (Zpos M) false false) E j1)
        as [mrs' e'] eqn:Es.
      cbn [fst snd] in Hm, He. subst e'.
      exists mrs'. split; [reflexivity |].
      pose proof (round_nearest_even_range (shr_m mrs')
                    (loc_of_shr_record mrs')) as Hr.
      assert (0 < 2 ^ n1) as Hp by (apply Z.pow_pos_nonneg; subst n1; lia).
      assert (2 ^ (- E) = 2 ^ (- (E + n1)) * 2 ^ n1) as Hsplit.
      { rewrite <- Z.pow_add_r by (subst n1; lia). f_equal. lia. }
      assert (0 <= shr_m mrs') by (rewrite Hm; apply Z.div_pos; lia).
      assert (shr_m mrs' < B * 2 ^ (- (E + n1))).
      { rewrite Hm. apply Z.div_lt_upper_bound; [exact Hp |].
        rewrite Hsplit in HM. lia. }
      lia. }
  rewrite Hshr.
  set (x := round_nearest_even (shr_m mrs') (loc_of_shr_record mrs')) in *.
  set (e1 := E + n1) in *.
  (* second shift *)
  pose proof (fexp_nonpos B x e1 HB He1 Hx) as Hf2.
  set (j2 := fexp prec emax (Zdigits2 x + e1) - e1).
  set (n2 := Z.max 0 j2).
  assert (e1 + n2 <= 0) as He2 by (subst n2 j2; lia).
  pose proof (shr_m_spec (Build_shr_record x false false) e1 j2
                ltac:(cbn; lia)) as [Hm2 He2'].
  fold n2 in Hm2, He2'. cbn [shr_m] in Hm2.
  destruct (shr (Build_shr_record x false false) e1 j2) as [mrs2 e2] eqn:Es2.
  cbn [fst snd] in Hm2, He2'. subst e2.
  pose proof (shift_keeps_bound B x e1 n2 ltac:(subst n2; lia) He2 Hx) as Hb.
  rewrite <- Hm2 in Hb.
  destruct (shr_m mrs2) as [| m2 | m2]; [exact I | | lia].
  destruct (Z.leb_spec (e1 + n2) (emax - prec)) as [_ | Hbig].
  - cbn [at_most]. repeat split; [exact He2 | lia].
  - unfold emax, prec in Hbig. lia.
Qed.

(** *** Left alignment and already-canonical mantissas *)

Lemma iter_xO_pow2 (m d : positive) :
  Zpos (Pos.iter xO m d) = Zpos m * 2 ^ Zpos d.
Proof.
  induction d as [| d IH] using Pos.peano_ind.
  - cbn [Pos.iter]. rewrite Pos2Z.inj_xO. change (2 ^ 1) with 2. lia.
  - rewrite Pos.iter_succ, Pos2Z.inj_xO, IH, Pos2Z.inj_succ.
    rewrite Z.pow_succ_r by lia. lia.
Qed.

Lemma shl_align_spec (m : positive) (e e' : Z) :
  snd (shl_align m e e') = Z.min e e'
  /\ Zpos (fst (shl_align m e e')) = Zpos m * 2 ^ (e - Z.min e e').
Proof.
  unfold shl_align. destruct (e' - e) as [| d | d] eqn:Ed; cbn [fst snd].
  - replace (Z.min e e') with e by lia.
    rewrite Z.sub_diag, Z.mul_1_r. split; reflexivity.
  - replace (Z.min e e') with e by lia.
    rewrite Z.sub_diag, Z.mul_1_r. split; reflexivity.
  - replace (Z.min e e') with e' by lia.
    split; [reflexivity |].
    rewrite iter_xO_pow2. f_equal. f_equal. lia.
Qed.

Lemma bounded_inv (m : positive) (e : Z) :
  bounded prec emax m e = true ->
  fexp prec emax (Zpos (digits2_pos m) + e) = e /\ e <= 971.
Proof.
  unfold bounded, canonical_mantissa. intros H.
  apply andb_true_iff in H. destruct H as [Hc He].
  apply Z.eqb_eq in Hc. apply Z.leb_le in He.
  split; [exact Hc | exact He].
Qed.

Lemma binary_round_aux_canonical (s : bool) (m : positive) (e : Z) :
  bounded prec emax m e = true ->
  binary_round_aux prec emax s (Zpos m) e loc_Exact = S754_finite s m e.
Proof.
  intros H. apply bounded_inv in H. destruct H as [Hc He].
  unfold binary_round_aux, shr_fexp. cbn [shr_record_of_loc Zdigits2].
  rewrite Hc, Z.sub_diag. cbn [shr fst snd shr_m loc_of_shr_record].
  cbn [round_nearest_even Zdigits2]. rewrite Hc, Z.sub_diag.
  cbn [shr shr_m].
  destruct (Z.leb_spec e (emax - prec)) as [_ | Hbig]; [reflexivity |].
  unfold emax, prec in Hbig. lia.
Qed.

Lemma binary_round_at_most (B : Z) (s : bool) (r : positive) (e : Z) :
  1 <= B <= 2 ^ 52 -> e <= 0 -> Zpos r <= B * 2 ^ (- e) ->
  at_most B s (binary_round prec emax s r e).
Proof.
  intros HB He Hr. unfold binary_round.
  pose proof (shl_align_spec r e
                (fexp prec emax (Zpos (digits2_pos r) + e))) as [Hz Hm].
  destruct (shl_align r e (fexp prec emax (Zpos (digits2_pos r) + e)))
    as [mz ez].
  cbn [fst snd] in Hz, Hm.
  apply binary_round_aux_at_most; [exact HB | lia |].
  rewrite Hm.
  assert (2 ^ (- ez) = 2 ^ (- e) * 2 ^ (e - Z.min e
            (fexp prec emax (Zpos (digits2_pos r) + e)))) as Hsplit.
  { rewrite <- Z.pow_add_r by lia. f_equal. lia. }
  rewrite Hsplit.
  assert (0 < 2 ^ (e - Z.min e (fexp prec emax (Zpos (digits2_pos r) + e))))
    by (apply Z.pow_pos_nonneg; lia).
  nia.
Qed.

Lemma binary_normalize_signed (s : bool) (q : positive) (e : Z) :
  binary_normalize prec emax (cond_Zopp s (Zpos q)) e false
  = binary_round prec emax s q e.
Proof. destruct s; reflexivity. Qed.

Lemma digits_unique (p : positive) (d : Z) :
  2 ^ (d - 1) <= Zpos p < 2 ^ d -> Zpos (digits2_pos p) = d.
Proof.
  intros H. rewrite Zdigits2_log2.
  assert (0 <= d - 1) as Hd.
  { destruct (Z_lt_dec (d - 1) 0) as [Hn | ]; [| lia].
    assert (d <= 0) by lia.
    destruct (Z.eq_dec d 0) as [-> | ]; [simpl in H; lia |].
    rewrite (Z.pow_neg_r 2 d) in H by lia. lia. }
  rewrite (Z.log2_unique (Zpos p) (d - 1)); [lia | exact Hd |].
  replace (Z.succ (d - 1)) with d by lia. exact H.
Qed.

Lemma shl_align_noop (m : positive) (e e' : Z) :
  e <= e' -> shl_align m e e' = (m, e).
Proof.
  intros H. unfold shl_align.
  destruct (e' - e) as [| d | d] eqn:Ed; try reflexivity. lia.
Qed.

(** *** [float(int(x))] for a binary64 [x] *)

(** With a non-negative exponent [x] is an integer and converts back to
    itself. *)
Lemma py_float_of_int_integral (s : bool) (m : positive) (e : Z) :
  bounded prec emax m e = true -> 0 <= e ->
  py_float_of_int (cond_Zopp s (Zpos m * 2 ^ e)) = Ok (S754_finite s m e).
Proof.
  intros Hb He. pose proof (bounded_inv _ _ Hb) as [Hc Hmax].
  assert (0 < 2 ^ e) as Hp by (apply Z.pow_pos_nonneg; lia).
  assert (0 < Zpos m * 2 ^ e) as Hpos by lia.
  destruct (Zpos m * 2 ^ e) as [| q | q] eqn:Eq; try lia.
  assert (Zpos (digits2_pos q) = Zpos (digits2_pos m) + e) as Hd.
  { rewrite !Zdigits2_log2, <- Eq, Z.log2_mul_pow2 by lia. lia. }
  unfold py_float_of_int. rewrite binary_normalize_signed.
  unfold binary_round. rewrite Z.add_0_r, Hd, Hc.
  rewrite shl_align_noop by exact He.
  unfold binary_round_aux, shr_fexp. cbn [shr_record_of_loc Zdigits2].
  rewrite Z.add_0_r, Hd, Hc, Z.sub_0_r, <- Eq.
  rewrite shr_exact by lia.
  cbn [shr_m loc_of_shr_record round_nearest_even Zdigits2].
  rewrite Z.add_0_l, Hc, Z.sub_diag. cbn [shr shr_m].
  destruct (Z.leb_spec e (emax - prec)) as [_ | Hbig]; [reflexivity |].
  unfold emax, prec in Hbig. lia.
Qed.

(** With a negative exponent and a whole part of at least one, the whole
    part converts to a float on the same exponent. *)
Lemma py_float_of_int_whole (s : bool) (m : positive) (e : Z) :
  bounded prec emax m e = true -> e < 0 -> 0 < Zpos m / 2 ^ (- e) ->
  exists y,
    py_float_of_int (cond_Zopp s (Zpos m / 2 ^ (- e)))
    = Ok (S754_finite s y e)
    /\ Zpos y = Zpos m / 2 ^ (- e) * 2 ^ (- e).
Proof.
  intros Hb He Hq. pose proof (bounded_inv _ _ Hb) as [Hc Hmax].
  set (k := - e) in *.
  assert (0 < 2 ^ k) as Hp by (apply Z.pow_pos_nonneg; lia).
  assert (2 ^ k <= Zpos m) as Hge.
  { destruct (Z_lt_dec (Zpos m) (2 ^ k)) as [Hlt | ]; [| lia].
    rewrite Z.div_small in Hq by lia. lia. }
  pose proof (digits_bounds m) as Hdm.
  rewrite fexp_eq in Hc.
  assert (Zpos (digits2_pos m) = 53) as Hd53.
  { destruct (Z.eq_dec (Zpos (digits2_pos m)) 53) as [| Hne]; [assumption |].
    exfalso.
    assert (e = -1074 /\ Zpos (digits2_pos m) < 53) as [He' Hlt] by lia.
    assert (2 ^ Zpos (digits2_pos m) <= 2 ^ k)
      by (apply Z.pow_le_mono_r; lia).
    lia. }
  rewrite Hd53 in Hdm.
  assert (k <= 52) as Hk.
  { destruct (Z_le_gt_dec k 52) as [| Hgt]; [assumption |].
    assert (2 ^ 53 <= 2 ^ k) by (apply Z.pow_le_mono_r; lia). lia. }
  destruct (Zpos m / 2 ^ k) as [| q | q] eqn:Eq; try lia.
  assert (2 ^ (52 - k) <= Zpos q < 2 ^ (53 - k)) as Hqb.
  { rewrite <- Eq. split.
    - apply Z.div_le_lower_bound; [exact Hp |].
      rewrite <- Z.pow_add_r by lia.
      replace (k + (52 - k)) with (53 - 1) by lia. lia.
    - apply Z.div_lt_upper_bound; [exact Hp |].
      rewrite <- Z.pow_add_r by lia.
      replace (k + (53 - k)) with 53 by lia. lia. }
  assert (Zpos (digits2_pos q) = 53 - k) as Hdq.
  { apply digits_unique. replace (53 - k - 1) with (52 - k) by lia.
    exact Hqb. }
  unfold py_float_of_int. rewrite binary_normalize_signed.
  unfold binary_round. rewrite Z.add_0_r, Hdq, fexp_eq.
  replace (Z.max (53 - k - 53) (-1074)) with e by lia.
  pose proof (shl_align_spec q 0 e) as [Hz Hm].
  destruct (shl_align q 0 e) as [y ez]. cbn [fst snd] in Hz, Hm.
  replace (Z.min 0 e) with e in * by lia. subst ez.
  replace (0 - e) with k in Hm by lia.
  assert (bounded prec emax y e = true) as Hby.
  { unfold bounded, canonical_mantissa.
    assert (Zpos (digits2_pos y) = 53) as Hdy.
    { apply digits_unique. rewrite Hm.
      replace (2 ^ (53 - 1)) with (2 ^ (52 - k) * 2 ^ k)
        by (rewrite <- Z.pow_add_r by lia; f_equal; lia).
      replace (2 ^ 53) with (2 ^ (53 - k) * 2 ^ k)
        by (rewrite <- Z.pow_add_r by lia; f_equal; lia).
      nia. }
    rewrite Hdy, fexp_eq.
    apply andb_true_iff. split; [apply Z.eqb_eq | apply Z.leb_le].
    - lia.
    - unfold emax, prec. lia. }
  rewrite (binary_round_aux_canonical s y e Hby).
  exists y. split; [reflexivity | exact Hm].
Qed.

(** *** The fraction [price - int(price)] *)

Lemma py_float_sub_int_fraction (s : bool) (m : positive) (e : Z) :
  bounded prec emax m e = true ->
  exists d,
    py_float_sub_int (S754_finite s m e) (cond_Zopp s (Z.shiftl (Zpos m) e))
    = Ok d
    /\ at_most 1 s d.
Proof.
  intros Hb. unfold py_float_sub_int.
  destruct (Z_le_gt_dec 0 e) as [He | He].
  - rewrite Z.shiftl_mul_pow2 by exact He.
    rewrite py_float_of_int_integral by assumption. cbn [bind].
    eexists. split; [reflexivity |].
    unfold SFsub. rewrite Z.min_id, shl_align_noop by lia.
    cbn [fst]. rewrite Z.sub_diag. exact I.
  - rewrite Z.shiftl_div_pow2 by lia.
    assert (0 < 2 ^ (- e)) as Hp by (apply Z.pow_pos_nonneg; lia).
    assert (0 <= Zpos m / 2 ^ (- e)) as Hq by (apply Z.div_pos; lia).
    destruct (Z.eq_dec (Zpos m / 2 ^ (- e)) 0) as [Hz | Hnz].
    + rewrite Hz.
      replace (cond_Zopp s 0) with 0 by (destruct s; reflexivity).
      eexists. split; [reflexivity |].
      cbn [SFsub at_most]. repeat split; [lia |].
      apply Z.div_small_iff in Hz; lia.
    + destruct (py_float_of_int_whole s m e Hb ltac:(lia) ltac:(lia))
        as (y & Hy & Hval).
      rewrite Hy. cbn [bind]. eexists. split; [reflexivity |].
      unfold SFsub. rewrite Z.min_id, !shl_align_noop by lia. cbn [fst].
      replace (cond_Zopp s (Zpos m) - cond_Zopp s (Zpos y))
        with (cond_Zopp s (Zpos m - Zpos y))
        by (destruct s; cbn [cond_Zopp]; lia).
      pose proof (Z.mod_pos_bound (Zpos m) (2 ^ (- e)) Hp) as Hr.
      pose proof (Z.div_mod (Zpos m) (2 ^ (- e)) ltac:(lia)) as Hdm.
      assert (Zpos m - Zpos y = Zpos m mod 2 ^ (- e)) as Hdiff by lia.
      rewrite Hdiff.
      destruct (Zpos m mod 2 ^ (- e)) as [| r | r]; [| | lia].
      * replace (cond_Zopp s 0) with 0 by (destruct s; reflexivity).
        exact I.
      * rewrite binary_normalize_signed.
        apply binary_round_at_most; lia.
Qed.

(** *** Scaling by one hundred and rounding to an integer *)

Lemma py_float_of_int_100 :
  py_float_of_int 100 = Ok (S754_finite false 7036874417766400 (-46)).
Proof. vm_compute. reflexivity. Qed.

Lemma py_float_mul_int_hundred (s : bool) (d : float) :
  at_most 1 s d ->
  exists c, py_float_mul_int d 100 = Ok c /\ at_most 100 s c.
Proof.
  intros Hd. unfold py_float_mul_int. rewrite py_float_of_int_100.
  cbn [bind]. eexists. split; [reflexivity |].
  destruct d as [sz | | | sd md ed]; cbn [at_most] in Hd;
    try contradiction.
  - exact I.
  - destruct Hd as (-> & He & Hm). cbn [SFmul].
    rewrite xorb_false_r.
    apply binary_round_aux_at_most; [lia | lia |].
    rewrite Pos2Z.inj_mul.
    replace (- (ed + -46)) with (- ed + 46) by lia.
    rewrite Z.pow_add_r by lia.
    change (2 ^ 46) with 70368744177664.
    assert (0 < 2 ^ (- ed)) by (apply Z.pow_pos_nonneg; lia).
    nia.
Qed.

Lemma round_half_even_range (B : Z) (m : positive) (e : Z) :
  e <= 0 -> Zpos m <= B * 2 ^ (- e) ->
  0 <= round_half_even m e <= B.
Proof.
  intros He Hm. unfold round_half_even. cbv zeta.
  destruct (Z.leb_spec 0 e) as [H0 | Hneg].
  - replace e with 0 in * by lia. rewrite Z.shiftl_0_r.
    cbn in Hm. lia.
  - rewrite (Z.shiftl_div_pow2 (Zpos m) e) by lia.
    rewrite !Z.shiftl_mul_pow2 by lia.
    set (k := - e) in *.
    assert (0 < 2 ^ k) as Hp by (apply Z.pow_pos_nonneg; lia).
    pose proof (Z.mod_pos_bound (Zpos m) (2 ^ k) Hp) as Hr.
    pose proof (Z.div_mod (Zpos m) (2 ^ k) ltac:(lia)) as Hdm.
    assert (0 <= Zpos m / 2 ^ k) as Hq by (apply Z.div_pos; lia).
    assert (Zpos m / 2 ^ k <= B) as HqB
      by (apply Z.div_le_upper_bound; lia).
    rewrite Z.mul_1_l.
    destruct (Z.compare_spec (2 * (Zpos m - Zpos m / 2 ^ k * 2 ^ k))
                (2 ^ k)) as [Hc | Hc | Hc].
    + destruct (Z.even (Zpos m / 2 ^ k)); nia.
    + lia.
    + nia.
Qed.

Lemma py_round_at_most (B : Z) (s : bool) (c : float) :
  0 <= B -> at_most B s c ->
  exists p, py_round c = Ok p
            /\ (if s then - B <= p <= 0 else 0 <= p <= B).
Proof.
  intros HB Hc.
  destruct c as [sz | | | sc m e]; cbn [at_most] in Hc; try contradiction.
  - exists 0. split; [reflexivity | destruct s; lia].
  - destruct Hc as (-> & He & Hm).
    pose proof (round_half_even_range B m e He Hm) as Hr.
    eexists. split; [reflexivity |].
    destruct s; cbn [cond_Zopp]; lia.
Qed.

(** *** The pence of a finite amount *)

Lemma py_int_finite (x : float) :
  nonnegative x || negative x = true -> exists w, py_int x = Ok w.
Proof.
  destruct x as [s | s | | s m e]; cbn; intros H;
    try discriminate; eauto.
Qed.

Lemma rounded_hundredths_range (x : float) (w : Z) :
  valid_binary prec emax x = true -> py_int x = Ok w ->
  exists p,
    rounded_hundredths x w = Ok p
    /\ (nonnegative x = true -> 0 <= w /\ 0 <= p <= 100)
    /\ (negative x = true -> w <= 0 /\ -100 <= p <= 0).
Proof.
  intros Hv Hw. destruct x as [s | s | | s m e]; cbn in Hw;
    try discriminate.
  - injection Hw as <-. exists 0.
    split; [destruct s; vm_compute; reflexivity |].
    split; [intros _; lia | cbn; discriminate].
  - injection Hw as <-. cbn [valid_binary] in Hv.
    unfold rounded_hundredths.
    destruct (py_float_sub_int_fraction s m e Hv) as (d & Hd & Hd1).
    rewrite Hd. cbn [bind].
    destruct (py_float_mul_int_hundred s d Hd1) as (c & Hc & Hc1).
    rewrite Hc. cbn [bind].
    destruct (py_round_at_most 100 s c ltac:(lia) Hc1) as (p & Hp & Hrange).
    exists p. split; [exact Hp |].
    assert (0 <= Z.shiftl (Zpos m) e) as Hsh
      by (apply Z.shiftl_nonneg; lia).
    cbn [nonnegative negative].
    destruct s; cbn [cond_Zopp negb] in *;
      split; intros Hs; try discriminate Hs; lia.
Qed.

(** * The specification's statements about [number_to_words] *)

(** C3. For every integer n with 0 <= n <= 99, number_to_words returns the
    lookup reference: "Zero" for 0, the ones word for 1..9, the irregular
    teen word for 10..19, and for 20..99 the tens word followed by a space
    and the ones word exactly when n mod 10 is not 0. *)
Theorem number_to_words_upto_99 (n : Z) :
  0 <= n <= 99 -> number_to_words n = Ok (words_upto_99 n).
Proof. apply number_to_words_lookup. Qed.

Lemma number_to_words_upto_99_witness :
  0 <= 42 <= 99 /\ number_to_words 42 = Ok (words_upto_99 42).
Proof.
  split; [lia | apply (number_to_words_upto_99 42); lia].
Defined.

Example words_upto_99_42 : words_upto_99 42 = "Forty Two"%string.
Proof. reflexivity. Qed.

Example words_upto_99_15 : words_upto_99 15 = "Fifteen"%string.
Proof. reflexivity. Qed.

Example number_to_words_42 : number_to_words 42 = Ok "Forty Two".
Proof. vm_compute. reflexivity. Qed.

Example number_to_words_15 : number_to_words 15 = Ok "Fifteen".
Proof. vm_compute. reflexivity. Qed.

(** C4. For every integer n with 100 <= n <= 999, number_to_words returns
    the ones word for n div 100 followed by " Hundred", and appends " and "
    plus the words for n mod 100 exactly when n mod 100 is not 0. *)
Theorem number_to_words_hundreds (n : Z) :
  100 <= n <= 999 ->
  (n mod 100 = 0 ->
   number_to_words n = Ok (ones_word (n / 100) ++ " Hundred")%string)
  /\ (n mod 100 <> 0 ->
      exists r, number_to_words (n mod 100) = Ok r
                /\ number_to_words n
                   = Ok (ones_word (n / 100) ++ " Hundred" ++ " and " ++ r)%string).
Proof.
  intros H.
  rewrite number_to_words_below_thousand by lia.
  rewrite convert_below_thousand_hundreds by exact H.
  split; intros Hm.
  - rewrite Hm. reflexivity.
  - assert (0 <= n mod 100 < 100) as Hb by (apply Z.mod_pos_bound; lia).
    destruct (Z.eqb_spec (n mod 100) 0) as [E | _]; [contradiction |].
    rewrite number_to_words_below_thousand by lia.
    destruct (convert_below_thousand_phrase (n mod 100) ltac:(lia))
      as [r [Hr _]].
    exists r. split; [exact Hr |]. rewrite Hr. reflexivity.
Qed.

Lemma number_to_words_hundreds_witness :
  100 <= 101 <= 999
  /\ (101 mod 100 = 0 ->
      number_to_words 101 = Ok (ones_word (101 / 100) ++ " Hundred")%string)
  /\ (101 mod 100 <> 0 ->
      exists r, number_to_words (101 mod 100) = Ok r
                /\ number_to_words 101
                   = Ok (ones_word (101 / 100) ++ " Hundred" ++ " and " ++ r)%string).
Proof.
  split; [lia | apply (number_to_words_hundreds 101); lia].
Defined.

Example number_to_words_100 : number_to_words 100 = Ok "One Hundred".
Proof. vm_compute. reflexivity. Qed.

Example number_to_words_101 : number_to_words 101 = Ok "One Hundred and One".
Proof. vm_compute. reflexivity. Qed.



(** C6, as the specification states it, fails from one thousand million
    on: the words for the millions part exist, the result does not. *)
Lemma number_to_words_million_tier_counterexample :
  1000000 <= 1000000000
  /\ number_to_words (1000000000 / 1000000) = Ok "One Thousand"
  /\ number_to_words 1000000000 = Raise IndexError
  /\ number_to_words 1000000000 <> Ok ("One Thousand" ++ " Million")%string.
Proof.
  split; [lia |]. split; [vm_compute; reflexivity |].
  split; [vm_compute; reflexivity |].
  intros H. vm_compute in H. discriminate H.
Qed.

(** C6 (amended). For every integer n with 1,000,000 <= n < 1,000,000,000,
    number_to_words returns the words for n div 1,000,000 followed by
    " Million"; with r = n mod 1,000,000, if r >= 1000 it appends the words
    for r div 1000 plus " Thousand" and then the words for r mod 1000 when
    that is > 0, and if 1 <= r < 1000 it appends the words for r directly;
    the parts are joined by single spaces. *)
Theorem number_to_words_million_tier (n : Z) :
  1000000 <= n < 1000000000 ->
  exists m,
    number_to_words (n / 1000000) = Ok m
    /\ (n mod 1000000 = 0 -> number_to_words n = Ok (m ++ " Million")%string)
    /\ (1 <= n mod 1000000 < 1000 ->
        exists w, number_to_words (n mod 1000000) = Ok w
                  /\ number_to_words n
                     = Ok (m ++ " Million" ++ " " ++ w)%string)
    /\ (1000 <= n mod 1000000 ->
        exists t,
          number_to_words (n mod 1000000 / 1000) = Ok t
          /\ (n mod 1000000 mod 1000 = 0 ->
              number_to_words n
              = Ok (m ++ " Million" ++ " " ++ t ++ " Thousand")%string)
          /\ (n mod 1000000 mod 1000 > 0 ->
              exists w,
                number_to_words (n mod 1000000 mod 1000) = Ok w
                /\ number_to_words n
                   = Ok (m ++ " Million" ++ " " ++ t ++ " Thousand"
                           ++ " " ++ w)%string)).
Proof.
  intros H.
  assert (forall k d, 0 < d -> d <= k < 1000 * d -> 1 <= k / d <= 999) as Hq.
  { intros k d Hd Hk. split.
    - apply Z.div_le_lower_bound; lia.
    - apply Z.lt_succ_r, Z.div_lt_upper_bound; lia. }
  assert (0 <= n mod 1000000 < 1000000) as Hrem
    by (apply Z.mod_pos_bound; lia).
  assert (0 <= n mod 1000000 mod 1000 < 1000) as Hrem'
    by (apply Z.mod_pos_bound; lia).
  destruct (convert_below_thousand_phrase (n / 1000000)
              ltac:(apply Hq; lia)) as [m [Hm _]].
  exists m. rewrite (number_to_words_below_thousand (n / 1000000))
    by (specialize (Hq n 1000000); lia).
  split; [exact Hm |].
  rewrite number_to_words_millions by lia. rewrite Hm. cbn [bind]. cbv zeta.
  split; [| split].
  - intros Hz. destruct (Z.gtb_spec (n mod 1000000) 0); [lia | reflexivity].
  - intros Hs. destruct (Z.gtb_spec (n mod 1000000) 0); [| lia].
    destruct (Z.geb_spec (n mod 1000000) 1000); [lia |].
    rewrite number_to_words_below_thousand by lia.
    destruct (convert_below_thousand_phrase (n mod 1000000) ltac:(lia))
      as [w [Hw _]].
    exists w. split; [exact Hw |]. rewrite Hw. reflexivity.
  - intros Hl. destruct (Z.gtb_spec (n mod 1000000) 0); [| lia].
    destruct (Z.geb_spec (n mod 1000000) 1000); [| lia].
    destruct (convert_below_thousand_phrase (n mod 1000000 / 1000)
                ltac:(apply Hq; lia)) as [t [Ht _]].
    exists t.
    rewrite (number_to_words_below_thousand (n mod 1000000 / 1000))
      by (specialize (Hq (n mod 1000000) 1000); lia).
    split; [exact Ht |]. rewrite Ht. cbn [bind].
    split; intros Hm'.
    + destruct (Z.gtb_spec (n mod 1000000 mod 1000) 0);
        [lia | reflexivity].
    + destruct (Z.gtb_spec (n mod 1000000 mod 1000) 0); [| lia].
      rewrite number_to_words_below_thousand by lia.
      destruct (convert_below_thousand_phrase (n mod 1000000 mod 1000)
                  ltac:(lia)) as [w [Hw _]].
      exists w. split; [exact Hw |]. rewrite Hw. reflexivity.
Qed.

Lemma number_to_words_million_tier_witness :
  1000000 <= 2500000 < 1000000000
  /\ exists m,
    number_to_words (2500000 / 1000000) = Ok m
    /\ (2500000 mod 1000000 = 0 ->
        number_to_words 2500000 = Ok (m ++ " Million")%string)
    /\ (1 <= 2500000 mod 1000000 < 1000 ->
        exists w, number_to_words (2500000 mod 1000000) = Ok w
                  /\ number_to_words 2500000
                     = Ok (m ++ " Million" ++ " " ++ w)%string)
    /\ (1000 <= 2500000 mod 1000000 ->
        exists t,
          number_to_words (2500000 mod 1000000 / 1000) = Ok t
          /\ (2500000 mod 1000000 mod 1000 = 0 ->
              number_to_words 2500000
              = Ok (m ++ " Million" ++ " " ++ t ++ " Thousand")%string)
          /\ (2500000 mod 1000000 mod 1000 > 0 ->
              exists w,
                number_to_words (2500000 mod 1000000 mod 1000) = Ok w
                /\ number_to_words 2500000
                   = Ok (m ++ " Million" ++ " " ++ t ++ " Thousand"
                           ++ " " ++ w)%string)).
Proof.
  split; [lia | apply (number_to_words_million_tier 2500000); lia].
Defined.

Example number_to_words_1000000 : number_to_words 1000000 = Ok "One Million".
Proof. vm_compute. reflexivity. Qed.

(** C8. For every non-negative integer n < 1,000,000, the string returned
    by number_to_words contains no two consecutive spaces and has no
    leading or trailing whitespace. *)
Theorem number_to_words_spacing (n : Z) :
  0 <= n < 1000000 ->
  exists s,
    number_to_words n = Ok s
    /\ double_space s = false
    /\ leading_ws s = false
    /\ trailing_ws s = false.
Proof.
  intros H.
  destruct (number_to_words_phrase n ltac:(lia)) as [s [Hs Ps]].
  apply phrase_inv in Ps. destruct Ps as (_ & Hd & Hl & Ht).
  exists s. auto.
Qed.

Lemma number_to_words_spacing_witness :
  0 <= 121121 < 1000000
  /\ exists s,
      number_to_words 121121 = Ok s
      /\ double_space s = false
      /\ leading_ws s = false
      /\ trailing_ws s = false.
Proof.
  split; [lia | apply (number_to_words_spacing 121121); lia].
Defined.

(** C10. Some input n >= 1,000,000,000 makes number_to_words reach an
    out-of-range index: the millions part n div 1,000,000 is >= 1000, so
    convert_below_thousand indexes the ten-entry ones table at a position
    >= 10 and the call fails with IndexError instead of returning a
    string. *)
Theorem number_to_words_index_error :
  exists n,
    1000000000 <= n
    /\ 1000 <= n / 1000000
    /\ Z.of_nat (List.length ones) <= n / 1000000 / 100
    /\ py_index ones (n / 1000000 / 100) = Raise IndexError
    /\ convert_below_thousand (n / 1000000) = Raise IndexError
    /\ number_to_words n = Raise IndexError.
Proof.
  exists 1000000000.
  split; [lia |]. split; [vm_compute; discriminate |].
  split; [vm_compute; discriminate |].
  split; [reflexivity |]. split; [reflexivity |].
  apply number_to_words_billion. lia.
Qed.

(** * The specification's statements about [price_to_words] *)

Lemma price_to_words_eq (price : float) :
  price_to_words price =
    pounds <- py_int price ;;
    pence <- rounded_hundredths price pounds ;;
    w <- number_to_words pounds ;;
    if pence >? 0 then
      p <- number_to_words pence ;;
      Ok (w ++ " Pounds" ++ " and " ++ p ++ " Pence")%string
    else Ok (w ++ " Pounds")%string.
Proof.
  unfold price_to_words, rounded_hundredths.
  destruct (py_int price) as [pounds | x]; cbn [bind]; [| reflexivity].
  destruct (py_float_sub_int price pounds) as [d | x]; cbn [bind];
    [| reflexivity].
  destruct (py_float_mul_int d 100) as [c | x]; cbn [bind]; [| reflexivity].
  destruct (py_round c) as [pence | x]; cbn [bind]; [| reflexivity].
  destruct (number_to_words pounds) as [w | x]; cbn [bind]; [| reflexivity].
  destruct (pence >? 0); [| reflexivity].
  destruct (number_to_words pence) as [p | x]; cbn [bind]; [| reflexivity].
  now rewrite string_app_assoc.
Qed.

(** C1. The specification requires that an amount whose fraction rounds to
    100 hundredths carries into the whole part.  At 1.995 the code keeps
    the whole part 1 and renders the fraction 100 as it stands. *)
Theorem price_to_words_rounding_overflow :
  nonnegative (decimal 1995 1000) = true
  /\ py_int (decimal 1995 1000) = Ok 1
  /\ rounded_hundredths (decimal 1995 1000) 1 = Ok 100
  /\ price_to_words (decimal 1995 1000)
     = Ok "One Pounds and One Hundred Pence".
Proof. repeat split; vm_compute; reflexivity. Qed.

(** C2. The specification requires that number_to_words and
    price_to_words fail on a negative input instead of returning a word
    string.  The code has no sign check: for the price -1.5 the whole
    part -1 reaches ones[-1], so number_to_words(-1) returns "Nine" and
    price_to_words(-1.5) returns "Nine Pounds"; for -10.5 the entry
    ones[-10] is empty and the result is " Pounds". *)
Theorem negative_input_not_rejected :
  -1 < 0
  /\ number_to_words (-1) = Ok "Nine"
  /\ negative (decimal (-15) 10) = true
  /\ py_int (decimal (-15) 10) = Ok (-1)
  /\ price_to_words (decimal (-15) 10) = Ok "Nine Pounds"
  /\ negative (decimal (-105) 10) = true
  /\ price_to_words (decimal (-105) 10) = Ok " Pounds".
Proof.
  split; [lia |]. repeat split; vm_compute; reflexivity.
Qed.

(** How far the missing sign check reaches.  A negative integer goes
    straight to the ones table, where Python counts a negative index from
    the end: a result comes back for -10 <= n < 0 and IndexError below
    that.  A negative finite price never gets a Pence clause, so its
    result is decided by the whole part alone. *)
Lemma negative_arguments_unchecked (n : Z) (price : float) (whole : Z) :
  n < 0 ->
  valid_binary prec emax price = true ->
  negative price = true ->
  py_int price = Ok whole ->
  ((-10 <= n -> number_to_words n = Ok (nth (Z.to_nat (n + 10)) ones ""%string))
   /\ (n < -10 -> number_to_words n = Raise IndexError))
  /\ whole <= 0
  /\ (whole = 0 -> price_to_words price = Ok "Zero Pounds")
  /\ (-10 <= whole < 0 ->
      price_to_words price
      = Ok (nth (Z.to_nat (whole + 10)) ones "" ++ " Pounds")%string)
  /\ (whole < -10 -> price_to_words price = Raise IndexError).
Proof.
  intros Hn Hv Hneg Hw.
  assert (forall k, k < 0 ->
            (-10 <= k ->
             number_to_words k = Ok (nth (Z.to_nat (k + 10)) ones ""%string))
            /\ (k < -10 -> number_to_words k = Raise IndexError)) as Hint.
  { intros k Hk. rewrite number_to_words_negative by exact Hk.
    split; intros Hr.
    - apply py_index_ones_negative. lia.
    - apply py_index_below. simpl. lia. }
  split; [exact (Hint n Hn) |].
  destruct (rounded_hundredths_range price whole Hv Hw)
    as (p & Hp & _ & Hrange).
  destruct (Hrange Hneg) as [Hw0 Hp0].
  split; [exact Hw0 |].
  rewrite price_to_words_eq, Hw. cbn [bind]. rewrite Hp. cbn [bind].
  destruct (Z.gtb_spec p 0) as [Hgt | _]; [lia |].
  split; [| split].
  - intros ->. reflexivity.
  - intros Hr. destruct (Hint whole ltac:(lia)) as [H1 _].
    rewrite H1 by lia. reflexivity.
  - intros Hr. destruct (Hint whole ltac:(lia)) as [_ H2].
    rewrite H2 by lia. reflexivity.
Qed.




(** * Further properties of the code *)

(** ** [get_contract_text] *)

(** X1. get_contract_text returns the empty string exactly for the choices
    other than "1", "2", "3" and "4": an unknown choice is not an error, it
    silently yields an empty clause. *)
Theorem get_contract_text_empty_iff (choice : string) :
  get_contract_text choice = ""%string
  <-> ~ In choice ["1"; "2"; "3"; "4"]%string.
Proof.
  unfold get_contract_text, contracts. cbn [dict_get In].
  destruct (String.eqb_spec "1" choice) as [<- | H1].
  { split; [discriminate | intros H; exfalso; apply H; auto]. }
  destruct (String.eqb_spec "2" choice) as [<- | H2].
  { split; [discriminate | intros H; exfalso; apply H; auto]. }
  destruct (String.eqb_spec "3" choice) as [<- | H3].
  { split; [discriminate | intros H; exfalso; apply H; auto]. }
  destruct (String.eqb_spec "4" choice) as [<- | H4].
  { split; [discriminate | intros H; exfalso; apply H; auto 6]. }
  split; [| reflexivity].
  intros _ [E | [E | [E | [E | []]]]]; congruence.
Qed.

(** ** [get_multiline_input] *)

Lemma last_snoc (l : list string) (x d : string) :
  last (l ++ [x])%list d = x.
Proof.
  induction l as [| a l IH]; [reflexivity |].
  cbn [app]. destruct (l ++ [x])%list eqn:E.
  - destruct l; discriminate E.
  - rewrite <- IH. reflexivity.
Qed.

Lemma no_blank_pair_cons (a b : string) (t : list string) :
  no_blank_pair (a :: b :: t)
  = negb (String.eqb a "" && String.eqb b "") && no_blank_pair (b :: t).
Proof. reflexivity. Qed.

Lemma no_blank_pair_app_l (l r : list string) :
  no_blank_pair (l ++ r)%list = true -> no_blank_pair l = true.
Proof.
  induction l as [| a l IH]; [reflexivity |].
  destruct l as [| b l]; [reflexivity |].
  cbn [app]. rewrite !no_blank_pair_cons. intros H.
  apply andb_true_iff in H. destruct H as [H1 H2].
  rewrite H1. apply IH. exact H2.
Qed.

Lemma no_blank_pair_seam (l : list string) (x : string) (r : list string) :
  no_blank_pair (l ++ x :: r)%list = true -> blank_seam l x = false.
Proof.
  unfold blank_seam. induction l as [| a l IH]; intros H.
  - apply andb_false_r.
  - destruct l as [| b l].
    + cbn [app] in H. rewrite no_blank_pair_cons in H.
      apply andb_true_iff in H. destruct H as [H _].
      apply negb_true_iff in H. cbn [last].
      rewrite andb_comm. exact H.
    + cbn [app] in H. rewrite no_blank_pair_cons in H.
      apply andb_true_iff in H. destruct H as [_ H].
      specialize (IH H). exact IH.
Qed.

Lemma no_blank_pair_snoc (l : list string) (x : string) :
  no_blank_pair l = true -> blank_seam l x = false ->
  no_blank_pair (l ++ [x])%list = true.
Proof.
  unfold blank_seam. induction l as [| a l IH]; intros Hl Hs;
    [reflexivity |].
  destruct l as [| b l].
  - cbn [app]. rewrite no_blank_pair_cons. cbn [last] in Hs.
    rewrite andb_comm in Hs. rewrite Hs. reflexivity.
  - cbn [app]. rewrite no_blank_pair_cons in Hl |- *.
    apply andb_true_iff in Hl. destruct Hl as [H1 H2].
    rewrite H1. apply IH; assumption.
Qed.

Lemma removelast_typed (l : list string) :
  l <> [] -> no_blank_pair l = true -> last l ""%string = ""%string ->
  typed_block (removelast l) /\ l = (removelast l ++ [""%string])%list.
Proof.
  induction l as [| a l IH]; intros Hne Hl Hlast; [contradiction |].
  destruct l as [| b l].
  - cbn in Hlast. subst a. split; [split; [reflexivity | now left] |].
    reflexivity.
  - rewrite no_blank_pair_cons in Hl.
    apply andb_true_iff in Hl. destruct Hl as [H1 H2].
    destruct (IH ltac:(discriminate) H2 Hlast) as [[Hnb Hend] Heq].
    change (removelast (a :: b :: l)) with (a :: removelast (b :: l)).
    split; [split |].
    + destruct (removelast (b :: l)) as [| c r] eqn:Er; [reflexivity |].
      rewrite no_blank_pair_cons, Hnb.
      assert (c = b) as -> by (rewrite Heq in *; cbn in *; congruence).
      rewrite H1. reflexivity.
    + right. destruct (removelast (b :: l)) as [| c r] eqn:Er.
      * cbn [app] in Heq. injection Heq as -> ->.
        cbn [last]. apply negb_true_iff in H1.
        rewrite andb_true_r in H1.
        intros ->. discriminate H1.
      * destruct Hend as [Hend | Hend]; [discriminate |]. exact Hend.
    + rewrite Heq at 1. reflexivity.
Qed.

(** The loop hands back a typed block that is followed by two empty
    lines. *)
Lemma multiline_loop_block (ls rest : list string) (out : string)
    (acc : list string) :
  typed_block (acc ++ ls)%list ->
  multiline_loop (ls ++ ""%string :: ""%string :: rest)%list out acc
  = Returns (acc ++ ls)%list {| stdin := rest; stdout := out |}.
Proof.
  revert acc. induction ls as [| x ls IH]; intros acc [Hnb Hend].
  - rewrite app_nil_r in *. cbn [app multiline_loop].
    assert (match acc with
            | [] => false
            | _ :: _ => String.eqb (last acc "") ""
            end = false) as Hseam.
    { destruct acc as [| a acc]; [reflexivity |].
      destruct Hend as [Hend | Hend]; [discriminate |].
      apply String.eqb_neq. exact Hend. }
    rewrite Hseam. cbn [String.eqb andb].
    destruct (acc ++ [""%string])%list as [| a l] eqn:E.
    { destruct acc; discriminate E. }
    rewrite <- E, last_snoc. cbn [String.eqb].
    rewrite removelast_last. reflexivity.
  - cbn [app multiline_loop].
    pose proof (no_blank_pair_seam acc x ls Hnb) as Hseam.
    unfold blank_seam in Hseam. rewrite Hseam.
    rewrite IH; rewrite <- app_assoc; [reflexivity |].
    split; assumption.
Qed.

(** Whatever the loop returns is a typed block, and the input read is
    that block followed by two empty lines. *)
Lemma multiline_loop_returns (pending : list string) (out : string)
    (acc res : list string) (w' : World) :
  no_blank_pair acc = true ->
  multiline_loop pending out acc = Returns res w' ->
  typed_block res
  /\ (acc ++ pending)%list
     = (res ++ ""%string :: ""%string :: stdin w')%list
  /\ stdout w' = out.
Proof.
  revert acc. induction pending as [| line rest IH]; intros acc Hacc Hrun;
    [discriminate Hrun |].
  cbn [multiline_loop] in Hrun.
  destruct (String.eqb line ""
            && match acc with
               | [] => false
               | _ :: _ => String.eqb (last acc "") ""
               end) eqn:Hseam.
  - injection Hrun as <- <-. cbn [stdin stdout].
    apply andb_true_iff in Hseam. destruct Hseam as [Hline Hlast].
    apply String.eqb_eq in Hline. subst line.
    destruct acc as [| a acc]; [discriminate Hlast |].
    apply String.eqb_eq in Hlast.
    destruct (removelast_typed (a :: acc) ltac:(discriminate) Hacc Hlast)
      as [Hblock Heq].
    split; [exact Hblock |]. split; [| reflexivity].
    rewrite Heq at 1. rewrite <- app_assoc. reflexivity.
  - specialize (IH (acc ++ [line])%list
                  (no_blank_pair_snoc acc line Hacc Hseam) Hrun).
    rewrite <- app_assoc in IH. exact IH.
Qed.

Lemma multiline_loop_eof (pending : list string) (out : string)
    (acc : list string) (w' : World) :
  multiline_loop pending out acc = EOFError w' ->
  w' = {| stdin := []; stdout := out |}.
Proof.
  revert acc. induction pending as [| line rest IH]; intros acc Hrun.
  - injection Hrun as <-. reflexivity.
  - cbn [multiline_loop] in Hrun.
    destruct (String.eqb line "" && _); [discriminate Hrun |].
    exact (IH _ Hrun).
Qed.

Lemma multiline_loop_pair (l1 l2 : list string) (out : string)
    (acc : list string) :
  exists res w',
    multiline_loop (l1 ++ ""%string :: ""%string :: l2)%list out acc
    = Returns res w'.
Proof.
  revert acc. induction l1 as [| x l1 IH]; intros acc.
  - cbn [app multiline_loop].
    destruct (String.eqb "" ""
              && match acc with
                 | [] => false
                 | _ :: _ => String.eqb (last acc "") ""
                 end).
    + eauto.
    + destruct (acc ++ [""%string])%list as [| a l] eqn:E.
      { destruct acc; discriminate E. }
      rewrite <- E, last_snoc. cbn [String.eqb andb]. eauto.
  - cbn [app multiline_loop].
    destruct (String.eqb x "" && _); [eauto | apply IH].
Qed.

(** X2. When the user types a block of lines with no two empty lines in a
    row and no empty line at the end, and then presses Enter twice,
    get_multiline_input returns exactly those lines joined by newlines,
    leaves the rest of the input unread, and has printed the prompt and the
    hint line. *)
Theorem get_multiline_input_block (prompt : string) (ls rest : list string)
    (out : string) :
  typed_block ls ->
  get_multiline_input prompt
    {| stdin := (ls ++ ""%string :: ""%string :: rest)%list; stdout := out |}
  = Returns (String.concat newline ls)
      {| stdin := rest;
         stdout := ((out ++ (newline ++ prompt) ++ newline)
                    ++ "(Press Enter twice when done)" ++ newline)%string |}.
Proof.
  intros Hblock. unfold get_multiline_input, py_print. cbn [stdin stdout].
  rewrite (multiline_loop_block ls rest _ []) by exact Hblock.
  reflexivity.
Qed.

Lemma get_multiline_input_block_witness :
  typed_block ["Line one"; ""; "Line two"]%string
  /\ get_multiline_input "Scope:"
       {| stdin := ["Line one"; ""; "Line two"; ""; ""; "next"]%string;
          stdout := "" |}
     = Returns (String.concat newline ["Line one"; ""; "Line two"]%string)
         {| stdin := ["next"]%string;
            stdout := ((("" ++ (newline ++ "Scope:") ++ newline)
                        ++ "(Press Enter twice when done)" ++ newline))%string |}.
Proof.
  assert (typed_block ["Line one"; ""; "Line two"]%string) as H.
  { split; [reflexivity | right; discriminate]. }
  split; [exact H |].
  exact (get_multiline_input_block "Scope:"
           ["Line one"; ""; "Line two"]%string ["next"]%string "" H).
Defined.

Lemma multiline_input_inversion (prompt : string) (w w' : World)
    (text : string) :
  get_multiline_input prompt w = Returns text w' ->
  exists ls,
    typed_block ls
    /\ stdin w = (ls ++ ""%string :: ""%string :: stdin w')%list
    /\ text = String.concat newline ls.
Proof.
  unfold get_multiline_input, py_print. cbn [stdin stdout]. intros Hrun.
  destruct (multiline_loop (stdin w) _ []) as [ls w1 | w1] eqn:Hloop;
    [| discriminate Hrun].
  injection Hrun as <- <-.
  destruct (multiline_loop_returns _ _ [] ls w1 eq_refl Hloop)
    as (Hblock & Hin & _).
  exists ls. auto.
Qed.

(** X3. Whenever get_multiline_input returns, the input it consumed is the
    returned lines followed by two empty lines: the returned lines contain
    no two empty lines in a row, do not end with an empty line, and the
    text is those lines joined by newlines. *)
Theorem get_multiline_input_returns (prompt : string) (w w' : World)
    (text : string) :
  get_multiline_input prompt w = Returns text w' ->
  exists ls,
    typed_block ls
    /\ stdin w = (ls ++ ""%string :: ""%string :: stdin w')%list
    /\ text = String.concat newline ls.
Proof. apply multiline_input_inversion. Qed.

Lemma get_multiline_input_returns_witness :
  get_multiline_input "Scope:"
    {| stdin := [""; "a"; ""; ""; "b"]%string; stdout := "" |}
  = Returns (String.concat newline [""; "a"]%string)
      {| stdin := ["b"]%string;
         stdout := ((("" ++ (newline ++ "Scope:") ++ newline)
                     ++ "(Press Enter twice when done)" ++ newline))%string |}
  /\ exists ls,
      typed_block ls
      /\ [""; "a"; ""; ""; "b"]%string
         = (ls ++ ""%string :: ""%string :: ["b"]%string)%list
      /\ String.concat newline [""; "a"]%string = String.concat newline ls.
Proof.
  assert (get_multiline_input "Scope:"
            {| stdin := [""; "a"; ""; ""; "b"]%string; stdout := "" |}
          = Returns (String.concat newline [""; "a"]%string)
              {| stdin := ["b"]%string;
                 stdout := ((("" ++ (newline ++ "Scope:") ++ newline)
                             ++ "(Press Enter twice when done)"
                             ++ newline))%string |}) as H
    by reflexivity.
  split; [exact H |].
  exact (get_multiline_input_returns _ _ _ _ H).
Defined.

(** X4. get_multiline_input fails with EOFError exactly when the remaining
    input has no two empty lines in a row; it has then read all of the
    input. *)
Theorem get_multiline_input_eof (prompt : string) (w : World) :
  (forall l1 l2, stdin w <> (l1 ++ ""%string :: ""%string :: l2)%list)
  <-> exists w', get_multiline_input prompt w = EOFError w'
                 /\ stdin w' = [].
Proof.
  split.
  - intros Hno.
    destruct (get_multiline_input prompt w) as [text w1 | w1] eqn:Hrun.
    + apply multiline_input_inversion in Hrun.
      destruct Hrun as (ls & _ & Hin & _). exfalso. exact (Hno _ _ Hin).
    + exists w1. split; [reflexivity |].
      unfold get_multiline_input, py_print in Hrun. cbn [stdin stdout] in Hrun.
      destruct (multiline_loop (stdin w) _ []) as [ls w2 | w2] eqn:Hloop;
        [discriminate Hrun |].
      injection Hrun as <-.
      apply multiline_loop_eof in Hloop. subst w2. reflexivity.
  - intros (w1 & Hrun & _) l1 l2 Hin.
    unfold get_multiline_input, py_print in Hrun. cbn [stdin stdout] in Hrun.
    rewrite Hin in Hrun.
    destruct (multiline_loop_pair l1 l2
                ((stdout w ++ (newline ++ prompt) ++ newline)
                 ++ "(Press Enter twice when done)" ++ newline)%string [])
      as (res & w2 & Hloop).
    rewrite Hloop in Hrun. discriminate Hrun.
Qed.

(** ** What [number_to_words] accepts *)

Lemma number_to_words_accepts (n : Z) :
  -10 <= n < 1000000000 -> exists s, number_to_words n = Ok s.
Proof.
  intros H. destruct (Z_lt_dec n 0) as [Hneg | Hpos].
  - rewrite number_to_words_negative by exact Hneg.
    rewrite py_index_ones_negative by lia. eauto.
  - apply number_to_words_returns. lia.
Qed.

Lemma number_to_words_rejects (n : Z) :
  n < -10 \/ 1000000000 <= n -> number_to_words n = Raise IndexError.
Proof.
  intros [H | H].
  - rewrite number_to_words_negative by lia.
    apply py_index_below. simpl. lia.
  - apply number_to_words_billion. exact H.
Qed.

(** X5. number_to_words returns a string exactly for -10 <= n <
    1,000,000,000 and fails with IndexError for every other integer; it
    raises no other exception. *)
Theorem number_to_words_domain (n : Z) :
  ((exists s, number_to_words n = Ok s) <-> -10 <= n < 1000000000)
  /\ (number_to_words n = Raise IndexError
      <-> n < -10 \/ 1000000000 <= n)
  /\ (forall e, number_to_words n = Raise e -> e = IndexError).
Proof.
  pose proof (number_to_words_accepts n) as Hin.
  pose proof (number_to_words_rejects n) as Hout.
  assert (-10 <= n < 1000000000 \/ (n < -10 \/ 1000000000 <= n)) as Hcases
    by lia.
  split; [| split].
  - split; [| exact Hin].
    intros [s Hs]. destruct Hcases as [H | H]; [exact H |].
    rewrite (Hout H) in Hs. discriminate Hs.
  - split; [| exact Hout].
    intros Hr. destruct Hcases as [H | H]; [| exact H].
    destruct (Hin H) as [s Hs]. rewrite Hs in Hr. discriminate Hr.
  - intros e He. destruct Hcases as [H | H].
    + destruct (Hin H) as [s Hs]. rewrite Hs in He. discriminate He.
    + rewrite (Hout H) in He. congruence.
Qed.

(** ** The words of a number *)

Lemma string_list_eqb_eq (a b : list string) :
  string_list_eqb a b = true -> a = b.
Proof.
  unfold string_list_eqb. destruct (list_eq_dec string_dec a b);
    [trivial | discriminate].
Qed.

(** Each group 1..999 is written as its tokens joined by single spaces;
    the tokens are words of a group and read back as the group. *)
Lemma group_tokens_check (g : Z) :
  1 <= g <= 999 ->
  convert_below_thousand g = Ok (String.concat " " (group_tokens g))
  /\ group_tokens g <> []
  /\ forallb group_word (group_tokens g) = true
  /\ fold_left read_word (group_tokens g) (0, 0) = (0, g).
Proof.
  intros H.
  assert (forall_upto 1000
            (fun k =>
               (k =? 0)
               || (returns (convert_below_thousand k)
                     (String.eqb (String.concat " " (group_tokens k)))
                   && negb (string_list_eqb (group_tokens k) [])
                   && forallb group_word (group_tokens k)
                   && (fst (fold_left read_word (group_tokens k) (0, 0)) =? 0)
                   && (snd (fold_left read_word (group_tokens k) (0, 0)) =? k)))
          = true) as Hall by (vm_compute; reflexivity).
  pose proof (forall_upto_spec _ _ Hall g ltac:(lia)) as Hg.
  cbv beta in Hg. destruct (Z.eqb_spec g 0); [lia |].
  cbn [orb] in Hg.
  apply andb_true_iff in Hg. destruct Hg as [Hg Hsnd].
  apply andb_true_iff in Hg. destruct Hg as [Hg Hfst].
  apply andb_true_iff in Hg. destruct Hg as [Hg Hwords].
  apply andb_true_iff in Hg. destruct Hg as [Hg Hne].
  apply returns_inv in Hg. destruct Hg as (s & Hs & Heq).
  apply String.eqb_eq in Heq. subst s.
  apply Z.eqb_eq in Hfst, Hsnd.
  split; [exact Hs |]. split; [| split; [exact Hwords |]].
  - intros E. rewrite E in Hne. discriminate Hne.
  - destruct (fold_left read_word (group_tokens g) (0, 0)) as [t c].
    cbn [fst snd] in Hfst, Hsnd. congruence.
Qed.

Lemma concat_app (sep : string) (a b : list string) :
  a <> [] -> b <> [] ->
  String.concat sep (a ++ b)
  = (String.concat sep a ++ sep ++ String.concat sep b)%string.
Proof.
  intros Ha Hb. induction a as [| x a IH]; [contradiction |].
  destruct a as [| y a].
  - cbn [app]. destruct b; [contradiction | reflexivity].
  - change (String.concat sep ((x :: y :: a) ++ b))
      with (x ++ sep ++ String.concat sep ((y :: a) ++ b))%string.
    rewrite IH by discriminate.
    change (String.concat sep (x :: y :: a))
      with (x ++ sep ++ String.concat sep (y :: a))%string.
    now rewrite !string_app_assoc.
Qed.

Lemma tier_tokens_concat (g : Z) (name : string) :
  1 <= g <= 999 ->
  tier_tokens g name <> []
  /\ String.concat " " (tier_tokens g name)
     = (String.concat " " (group_tokens g) ++ " " ++ name)%string.
Proof.
  intros H. unfold tier_tokens.
  destruct (Z.eqb_spec g 0); [lia |].
  destruct (group_tokens_check g H) as (_ & Hne & _).
  split.
  - destruct (group_tokens g); [contradiction | discriminate].
  - rewrite concat_app by (assumption || discriminate). reflexivity.
Qed.

Lemma tier_tokens_zero (name : string) : tier_tokens 0 name = [].
Proof. reflexivity. Qed.

(** The words written for [n] are [number_tokens n], joined by single
    spaces. *)
Lemma number_to_words_tokens (n : Z) :
  0 <= n < 1000000000 ->
  number_to_words n = Ok (String.concat " " (number_tokens n)).
Proof.
  intros H. unfold number_tokens.
  destruct (Z.eqb_spec n 0) as [-> | Hz]; [reflexivity |].
  assert (forall k d, 0 < d -> d <= k < 1000 * d -> 1 <= k / d <= 999) as Hq.
  { intros k d Hd Hk. split.
    - apply Z.div_le_lower_bound; lia.
    - apply Z.lt_succ_r, Z.div_lt_upper_bound; lia. }
  destruct (Z_lt_dec n 1000) as [H1 | H1].
  { rewrite number_to_words_below_thousand by lia.
    replace (n / 1000000) with 0 by (symmetry; apply Z.div_small; lia).
    replace (n / 1000) with 0 by (symmetry; apply Z.div_small; lia).
    rewrite Z.mod_0_l, !tier_tokens_zero, Z.mod_small by lia.
    cbn [app]. apply group_tokens_check. lia. }
  destruct (Z_lt_dec n 1000000) as [H2 | H2].
  { rewrite number_to_words_thousands by lia.
    replace (n / 1000000) with 0 by (symmetry; apply Z.div_small; lia).
    rewrite tier_tokens_zero. cbn [app].
    pose proof (Hq n 1000 ltac:(lia) ltac:(lia)) as Ha.
    rewrite (Z.mod_small (n / 1000)) by lia.
    destruct (group_tokens_check (n / 1000) Ha) as (Hcbt & _).
    destruct (tier_tokens_concat (n / 1000) "Thousand" Ha) as (Hne & Hcat).
    rewrite Hcbt. cbn [bind].
    assert (0 <= n mod 1000 < 1000) as Hb by (apply Z.mod_pos_bound; lia).
    destruct (Z.gtb_spec (n mod 1000) 0) as [Hpos | Hzero].
    - destruct (group_tokens_check (n mod 1000) ltac:(lia))
        as (Hcbt' & Hne' & _).
      rewrite Hcbt'. cbn [bind].
      rewrite concat_app, Hcat by assumption.
      now rewrite !string_app_assoc.
    - replace (n mod 1000) with 0 by lia.
      change (group_tokens 0) with (@nil string).
      rewrite app_nil_r, Hcat. reflexivity. }
  rewrite number_to_words_millions by lia.
  pose proof (Hq n 1000000 ltac:(lia) ltac:(lia)) as Ha.
  destruct (group_tokens_check (n / 1000000) Ha) as (Hcbt & _).
  destruct (tier_tokens_concat (n / 1000000) "Million" Ha) as (Hne & Hcat).
  rewrite Hcbt. cbn [bind]. cbv zeta.
  assert (n mod 1000000 / 1000 = n / 1000 mod 1000) as Hmid
    by (Z.div_mod_to_equations; lia).
  assert (n mod 1000000 mod 1000 = n mod 1000) as Hlow
    by (Z.div_mod_to_equations; lia).
  assert (0 <= n mod 1000000 < 1000000) as Hr
    by (apply Z.mod_pos_bound; lia).
  assert (0 <= n mod 1000 < 1000) as Hb by (apply Z.mod_pos_bound; lia).
  rewrite Hlow, Hmid.
  destruct (Z.gtb_spec (n mod 1000000) 0) as [Hpos | Hzero].
  - destruct (Z.geb_spec (n mod 1000000) 1000) as [Hbig | Hsmall].
    + assert (1 <= n / 1000 mod 1000 <= 999) as Hc
        by (rewrite <- Hmid; apply Hq; lia).
      destruct (group_tokens_check _ Hc) as (Hcbt2 & _).
      destruct (tier_tokens_concat _ "Thousand" Hc) as (Hne2 & Hcat2).
      rewrite Hcbt2. cbn [bind].
      destruct (Z.gtb_spec (n mod 1000) 0) as [Hpos' | Hzero'].
      * destruct (group_tokens_check (n mod 1000) ltac:(lia))
          as (Hcbt3 & Hne3 & _).
        rewrite Hcbt3. cbn [bind].
        rewrite concat_app, Hcat by
          (assumption
           || (destruct (tier_tokens (n / 1000 mod 1000) "Thousand");
               [contradiction | discriminate])).
        rewrite concat_app, Hcat2 by assumption.
        now rewrite !string_app_assoc.
      * replace (n mod 1000) with 0 by lia.
        change (group_tokens 0) with (@nil string).
        rewrite app_nil_r, concat_app, Hcat, Hcat2 by assumption.
        now rewrite !string_app_assoc.
    + assert (n / 1000 mod 1000 = 0) as Hc
        by (rewrite <- Hmid; apply Z.div_small; lia).
      assert (n mod 1000000 = n mod 1000) as Hsame
        by (rewrite <- Hlow; symmetry; apply Z.mod_small; lia).
      rewrite Hc, tier_tokens_zero, Hsame. cbn [app].
      destruct (group_tokens_check (n mod 1000) ltac:(lia))
        as (Hcbt3 & Hne3 & _).
      rewrite Hcbt3. cbn [bind].
      rewrite concat_app, Hcat by assumption.
      now rewrite !string_app_assoc.
  - assert (n / 1000 mod 1000 = 0) as Hc
      by (rewrite <- Hmid; apply Z.div_small; lia).
    replace (n mod 1000) with 0
      by (rewrite <- Hlow; replace (n mod 1000000) with 0 by lia;
          reflexivity).
    rewrite Hc, tier_tokens_zero.
    change (group_tokens 0) with (@nil string).
    cbn [app]. rewrite app_nil_r, Hcat. reflexivity.
Qed.

Lemma group_word_is_word (w : string) :
  group_word w = true -> is_word w = true.
Proof.
  unfold group_word. intros H.
  apply andb_true_iff in H. destruct H as [H _].
  apply andb_true_iff in H. destruct H as [H _].
  apply andb_true_iff in H. destruct H as [H _]. exact H.
Qed.

Lemma forallb_group_words (l : list string) :
  forallb group_word l = true -> forallb is_word l = true.
Proof.
  induction l as [| w l IH]; [reflexivity |]. cbn [forallb]. intros H.
  apply andb_true_iff in H. destruct H as [Hw Hl].
  rewrite (group_word_is_word w Hw), (IH Hl). reflexivity.
Qed.

Lemma group_tokens_words (g : Z) :
  0 <= g <= 999 -> forallb group_word (group_tokens g) = true.
Proof.
  intros H. destruct (Z.eq_dec g 0) as [-> | Hz]; [reflexivity |].
  apply group_tokens_check. lia.
Qed.

Lemma tier_tokens_words (g : Z) (name : string) :
  0 <= g <= 999 -> is_word name = true ->
  forallb is_word (tier_tokens g name) = true.
Proof.
  intros H Hname. unfold tier_tokens. destruct (g =? 0); [reflexivity |].
  rewrite forallb_app, (forallb_group_words _ (group_tokens_words g H)).
  cbn [forallb]. rewrite Hname. reflexivity.
Qed.

Lemma number_parts (n : Z) :
  0 <= n < 1000000000 ->
  0 <= n / 1000000 <= 999
  /\ 0 <= n / 1000 mod 1000 <= 999
  /\ 0 <= n mod 1000 <= 999
  /\ n = n / 1000000 * 1000000 + n / 1000 mod 1000 * 1000 + n mod 1000.
Proof. intros H. Z.div_mod_to_equations. lia. Qed.

Lemma number_tokens_words (n : Z) :
  0 <= n < 1000000000 ->
  number_tokens n <> [] /\ forallb is_word (number_tokens n) = true.
Proof.
  intros H. destruct (number_parts n H) as (Hm & Hk & Hu & _).
  unfold number_tokens. destruct (Z.eqb_spec n 0) as [-> | Hz].
  { split; [discriminate | reflexivity]. }
  split.
  - intros E. apply app_eq_nil in E. destruct E as [Em E].
    apply app_eq_nil in E. destruct E as [Ek Eu].
    unfold tier_tokens in Em, Ek.
    destruct (Z.eqb_spec (n / 1000000) 0) as [Zm | _];
      [| destruct (group_tokens (n / 1000000)); discriminate Em].
    destruct (Z.eqb_spec (n / 1000 mod 1000) 0) as [Zk | _];
      [| destruct (group_tokens (n / 1000 mod 1000)); discriminate Ek].
    destruct (Z.eq_dec (n mod 1000) 0) as [Zu | Nu].
    + Z.div_mod_to_equations. lia.
    + destruct (group_tokens_check (n mod 1000) ltac:(lia)) as (_ & Hne & _).
      contradiction.
  - rewrite !forallb_app.
    rewrite (tier_tokens_words _ "Million" Hm eq_refl).
    rewrite (tier_tokens_words _ "Thousand" Hk eq_refl).
    rewrite (forallb_group_words _ (group_tokens_words _ Hu)).
    reflexivity.
Qed.

(** *** Reading the words back *)

Lemma read_group_word (t c : Z) (w : string) :
  group_word w = true ->
  read_word (t, c) w = (t, snd (read_word (0, c) w)).
Proof.
  unfold group_word, read_word. intros H.
  apply andb_true_iff in H. destruct H as [H Ht].
  apply andb_true_iff in H. destruct H as [_ Hm].
  apply negb_true_iff in Hm, Ht. rewrite Hm, Ht.
  destruct (String.eqb w "Hundred"); [reflexivity |].
  destruct (String.eqb w "and"); reflexivity.
Qed.

Lemma read_group_words (ws : list string) :
  forallb group_word ws = true ->
  forall t c,
    fold_left read_word ws (t, c)
    = (t, snd (fold_left read_word ws (0, c))).
Proof.
  induction ws as [| w ws IH]; intros Hws t c; [reflexivity |].
  cbn [forallb] in Hws. apply andb_true_iff in Hws.
  destruct Hws as [Hw Hws]. cbn [fold_left].
  rewrite (read_group_word t c w Hw), (read_group_word 0 c w Hw).
  cbn [snd]. rewrite (IH Hws t). rewrite (IH Hws 0). reflexivity.
Qed.

Lemma read_group (g t : Z) :
  0 <= g <= 999 -> fold_left read_word (group_tokens g) (t, 0) = (t, g).
Proof.
  intros H. destruct (Z.eq_dec g 0) as [-> | Hz]; [reflexivity |].
  destruct (group_tokens_check g ltac:(lia)) as (_ & _ & Hws & Hread).
  rewrite (read_group_words _ Hws t 0), Hread. reflexivity.
Qed.

Lemma read_million_tier (g t : Z) :
  0 <= g <= 999 ->
  fold_left read_word (tier_tokens g "Million") (t, 0)
  = (t + g * 1000000, 0).
Proof.
  intros H. unfold tier_tokens.
  destruct (Z.eqb_spec g 0) as [-> | Hz].
  - cbn [fold_left]. f_equal. lia.
  - rewrite fold_left_app, (read_group g t H). reflexivity.
Qed.

Lemma read_thousand_tier (g t : Z) :
  0 <= g <= 999 ->
  fold_left read_word (tier_tokens g "Thousand") (t, 0)
  = (t + g * 1000, 0).
Proof.
  intros H. unfold tier_tokens.
  destruct (Z.eqb_spec g 0) as [-> | Hz].
  - cbn [fold_left]. f_equal. lia.
  - rewrite fold_left_app, (read_group g t H). reflexivity.
Qed.

Lemma read_number_tokens (n : Z) :
  0 <= n < 1000000000 -> read_words (number_tokens n) = n.
Proof.
  intros H. destruct (number_parts n H) as (Hm & Hk & Hu & Hsum).
  unfold read_words, number_tokens.
  destruct (Z.eqb_spec n 0) as [-> | Hz]; [reflexivity |].
  rewrite !fold_left_app.
  rewrite (read_million_tier _ 0 Hm), (read_thousand_tier _ _ Hk).
  rewrite (read_group _ _ Hu). lia.
Qed.

Lemma letter_not_space (c : ascii) :
  is_letter c = true -> is_space c = false.
Proof.
  unfold is_space. destruct (Ascii.eqb_spec c " ") as [-> | _];
    [discriminate | reflexivity].
Qed.

Lemma split_on_space_word (a : string) :
  all_letters a = true -> a <> ""%string -> split_on_space a = [a].
Proof.
  induction a as [| c a IH]; intros Ha Hne; [contradiction |].
  cbn [all_letters] in Ha. apply andb_true_iff in Ha.
  destruct Ha as [Hc Ha]. cbn [split_on_space].
  rewrite (letter_not_space c Hc).
  destruct a as [| d a]; [reflexivity |].
  rewrite IH by (assumption || discriminate). reflexivity.
Qed.

Lemma split_on_space_app (a s : string) :
  all_letters a = true ->
  split_on_space (a ++ String " " s) = a :: split_on_space s.
Proof.
  induction a as [| c a IH]; intros Ha; [reflexivity |].
  cbn [all_letters] in Ha. apply andb_true_iff in Ha.
  destruct Ha as [Hc Ha].
  change (String c a ++ String " " s)%string
    with (String c (a ++ String " " s)).
  cbn [split_on_space]. rewrite (letter_not_space c Hc), (IH Ha).
  reflexivity.
Qed.

Lemma split_on_space_concat (ws : list string) :
  ws <> [] -> forallb is_word ws = true ->
  split_on_space (String.concat " " ws) = ws.
Proof.
  induction ws as [| w ws IH]; intros Hne Hws; [contradiction |].
  cbn [forallb] in Hws. apply andb_true_iff in Hws.
  destruct Hws as [Hw Hws]. unfold is_word in Hw.
  apply andb_true_iff in Hw. destruct Hw as [Hwne Hwl].
  destruct ws as [| v ws].
  - apply split_on_space_word; [exact Hwl |].
    intros ->. discriminate Hwne.
  - change (String.concat " " (w :: v :: ws))
      with (w ++ String " " (String.concat " " (v :: ws)))%string.
    rewrite split_on_space_app by exact Hwl.
    rewrite IH by (assumption || discriminate). reflexivity.
Qed.

(** What is written for [n] reads back as [n]. *)
Lemma words_to_number_number_to_words (n : Z) :
  0 <= n < 1000000000 ->
  exists s, number_to_words n = Ok s /\ words_to_number s = n.
Proof.
  intros H. eexists. split; [apply number_to_words_tokens; exact H |].
  unfold words_to_number.
  destruct (number_tokens_words n H) as [Hne Hws].
  rewrite split_on_space_concat by assumption.
  apply read_number_tokens. exact H.
Qed.

(** X6. For 0 <= n < 1,000,000,000 the result of number_to_words is a
    non-empty sequence of words, each a non-empty run of ASCII letters,
    separated by single spaces: it contains no digit, hyphen or comma and
    no other whitespace. *)
Theorem number_to_words_shape (n : Z) :
  0 <= n < 1000000000 ->
  exists ws,
    ws <> []
    /\ forallb is_word ws = true
    /\ number_to_words n = Ok (String.concat " " ws).
Proof.
  intros H. exists (number_tokens n).
  destruct (number_tokens_words n H) as [Hne Hws].
  split; [exact Hne |]. split; [exact Hws |].
  apply number_to_words_tokens. exact H.
Qed.

Lemma number_to_words_shape_witness :
  0 <= 21000305 < 1000000000
  /\ exists ws,
      ws <> []
      /\ forallb is_word ws = true
      /\ number_to_words 21000305 = Ok (String.concat " " ws).
Proof.
  split; [lia | apply (number_to_words_shape 21000305); lia].
Defined.

(** X7. number_to_words never writes two different numbers alike: on
    0 <= n < 1,000,000,000 equal results come from equal arguments. *)
Theorem number_to_words_injective (a b : Z) :
  0 <= a < 1000000000 -> 0 <= b < 1000000000 ->
  number_to_words a = number_to_words b -> a = b.
Proof.
  intros Ha Hb Heq.
  destruct (words_to_number_number_to_words a Ha) as (s & Hs & Hback).
  destruct (words_to_number_number_to_words b Hb) as (s' & Hs' & Hback').
  rewrite Hs, Hs' in Heq. injection Heq as ->. congruence.
Qed.

Lemma number_to_words_injective_witness :
  (0 <= 90 < 1000000000 /\ 0 <= 90 < 1000000000
   /\ number_to_words 90 = number_to_words 90)
  /\ 90 = 90.
Proof.
  assert (0 <= 90 < 1000000000) as H by lia.
  assert (number_to_words 90 = number_to_words 90) as E by reflexivity.
  split; [split; [exact H | split; [exact H | exact E]] |].
  exact (number_to_words_injective 90 90 H H E).
Defined.

(** ** What [price_to_words] accepts and writes *)

Lemma py_int_finite_sign (x : float) (w : Z) :
  py_int x = Ok w -> nonnegative x = true \/ negative x = true.
Proof.
  destruct x as [s | s | | s m e]; cbn; intros H; try discriminate H.
  - now left.
  - destruct s; [now right | now left].
Qed.

Lemma rounded_hundredths_small (x : float) (w : Z) :
  valid_binary prec emax x = true -> py_int x = Ok w ->
  exists p, rounded_hundredths x w = Ok p /\ p <= 100.
Proof.
  intros Hv Hw.
  destruct (rounded_hundredths_range x w Hv Hw) as (p & Hp & Hnn & Hneg).
  exists p. split; [exact Hp |].
  destruct (py_int_finite_sign x w Hw) as [H | H];
    [destruct (Hnn H) | destruct (Hneg H)]; lia.
Qed.

Lemma price_to_words_accepts (price : float) (w : Z) :
  valid_binary prec emax price = true -> py_int price = Ok w ->
  -10 <= w < 1000000000 -> exists s, price_to_words price = Ok s.
Proof.
  intros Hv Hw Hrange.
  destruct (rounded_hundredths_small price w Hv Hw) as (p & Hp & Hle).
  destruct (number_to_words_accepts w Hrange) as [ws Hws].
  rewrite price_to_words_eq, Hw. cbn [bind]. rewrite Hp. cbn [bind].
  rewrite Hws. cbn [bind].
  destruct (Z.gtb_spec p 0) as [Hpos | _]; [| eauto].
  destruct (number_to_words_accepts p ltac:(lia)) as [ps Hps].
  rewrite Hps. cbn [bind]. eauto.
Qed.

Lemma price_to_words_rejects (price : float) (w : Z) :
  valid_binary prec emax price = true -> py_int price = Ok w ->
  w < -10 \/ 1000000000 <= w -> price_to_words price = Raise IndexError.
Proof.
  intros Hv Hw Hrange.
  destruct (rounded_hundredths_small price w Hv Hw) as (p & Hp & _).
  rewrite price_to_words_eq, Hw. cbn [bind]. rewrite Hp. cbn [bind].
  rewrite (number_to_words_rejects w Hrange). reflexivity.
Qed.

(** X8. For a binary64 price, price_to_words returns a string exactly when
    the price is finite and its truncated whole part w satisfies
    -10 <= w < 1,000,000,000.  A finite price outside that range fails
    with IndexError, a NaN with ValueError and an infinity with
    OverflowError; the fraction never makes the call fail. *)
Theorem price_to_words_domain (price : float) :
  valid_binary prec emax price = true ->
  ((exists s, price_to_words price = Ok s)
   <-> (exists w, py_int price = Ok w /\ -10 <= w < 1000000000))
  /\ (forall w, py_int price = Ok w ->
                w < -10 \/ 1000000000 <= w ->
                price_to_words price = Raise IndexError)
  /\ (price = S754_nan -> price_to_words price = Raise ValueError)
  /\ (forall s, price = S754_infinity s ->
                price_to_words price = Raise OverflowError).
Proof.
  intros Hv. split; [| split; [| split]].
  - split.
    + intros [s Hs]. destruct (py_int price) as [w | e] eqn:Hw.
      * exists w. split; [reflexivity |].
        destruct (Z_lt_dec w (-10)) as [Hlow | Hlow];
          [rewrite (price_to_words_rejects price w Hv Hw) in Hs by lia;
           discriminate Hs |].
        destruct (Z_le_dec 1000000000 w) as [Hhigh | Hhigh];
          [rewrite (price_to_words_rejects price w Hv Hw) in Hs by lia;
           discriminate Hs |].
        lia.
      * rewrite price_to_words_eq, Hw in Hs. discriminate Hs.
    + intros (w & Hw & Hrange).
      exact (price_to_words_accepts price w Hv Hw Hrange).
  - intros w Hw Hrange. exact (price_to_words_rejects price w Hv Hw Hrange).
  - intros ->. reflexivity.
  - intros s ->. reflexivity.
Qed.

Lemma price_to_words_domain_witness :
  valid_binary prec emax (decimal (-105) 10) = true
  /\ ((exists s, price_to_words (decimal (-105) 10) = Ok s)
      <-> (exists w, py_int (decimal (-105) 10) = Ok w
                     /\ -10 <= w < 1000000000))
  /\ (forall w, py_int (decimal (-105) 10) = Ok w ->
                w < -10 \/ 1000000000 <= w ->
                price_to_words (decimal (-105) 10) = Raise IndexError)
  /\ (decimal (-105) 10 = S754_nan ->
      price_to_words (decimal (-105) 10) = Raise ValueError)
  /\ (forall s, decimal (-105) 10 = S754_infinity s ->
                price_to_words (decimal (-105) 10) = Raise OverflowError).
Proof.
  assert (valid_binary prec emax (decimal (-105) 10) = true) as H
    by (vm_compute; reflexivity).
  split; [exact H |].
  exact (price_to_words_domain (decimal (-105) 10) H).
Defined.

Lemma concat_cons (sep x : string) (xs : list string) :
  xs <> [] ->
  String.concat sep (x :: xs) = (x ++ sep ++ String.concat sep xs)%string.
Proof. intros H. destruct xs; [contradiction | reflexivity]. Qed.

(** The words written for a non-negative amount. *)
Lemma price_to_words_tokens (price : float) (whole : Z) :
  valid_binary prec emax price = true ->
  nonnegative price = true ->
  py_int price = Ok whole ->
  whole < 1000000000 ->
  exists pence,
    rounded_hundredths price whole = Ok pence
    /\ 0 <= whole /\ 0 <= pence <= 100
    /\ price_to_words price
       = Ok (String.concat " " (price_tokens whole pence)).
Proof.
  intros Hv Hnn Hw Hlt.
  destruct (rounded_hundredths_range price whole Hv Hw)
    as (f & Hf & Hrange & _).
  destruct (Hrange Hnn) as [Hw0 Hf0].
  exists f. split; [exact Hf |]. split; [exact Hw0 |].
  split; [exact Hf0 |].
  rewrite price_to_words_eq, Hw. cbn [bind]. rewrite Hf. cbn [bind].
  rewrite (number_to_words_tokens whole) by lia. cbn [bind].
  destruct (number_tokens_words whole ltac:(lia)) as [Hne _].
  unfold price_tokens.
  destruct (Z.gtb_spec f 0) as [Hpos | _].
  - rewrite (number_to_words_tokens f) by lia. cbn [bind].
    destruct (number_tokens_words f ltac:(lia)) as [Hnef _].
    rewrite concat_app by (assumption || discriminate).
    rewrite !concat_cons by
      (discriminate
       || (destruct (number_tokens f); [contradiction | discriminate])).
    rewrite concat_app by (assumption || discriminate).
    reflexivity.
  - rewrite concat_app by (assumption || discriminate). reflexivity.
Qed.

Lemma price_tokens_words (whole pence : Z) :
  0 <= whole < 1000000000 -> 0 <= pence <= 100 ->
  forallb is_word (price_tokens whole pence) = true
  /\ (last (price_tokens whole pence) ""%string = "Pounds"%string
      \/ last (price_tokens whole pence) ""%string = "Pence"%string).
Proof.
  intros Hw Hp. unfold price_tokens.
  destruct (number_tokens_words whole Hw) as [_ Hws].
  destruct (number_tokens_words pence ltac:(lia)) as [_ Hps].
  destruct (pence >? 0).
  - split.
    + rewrite forallb_app, Hws. cbn [forallb].
      rewrite forallb_app, Hps. reflexivity.
    + right.
      change ("Pounds"%string :: "and"%string
                :: number_tokens pence ++ ["Pence"%string])%list
        with (["Pounds"%string; "and"%string]
                ++ number_tokens pence ++ ["Pence"%string])%list.
      rewrite !app_assoc. apply last_snoc.
  - split.
    + rewrite forallb_app, Hws. reflexivity.
    + left. apply last_snoc.
Qed.

(** X9. For a non-negative amount with whole part below 1,000,000,000 the
    result of price_to_words is a sequence of words (non-empty runs of
    ASCII letters) separated by single spaces, and its last word is
    "Pounds" or "Pence". *)
Theorem price_to_words_shape (price : float) (whole : Z) :
  valid_binary prec emax price = true ->
  nonnegative price = true ->
  py_int price = Ok whole ->
  whole < 1000000000 ->
  exists ws,
    forallb is_word ws = true
    /\ (last ws ""%string = "Pounds"%string
        \/ last ws ""%string = "Pence"%string)
    /\ price_to_words price = Ok (String.concat " " ws).
Proof.
  intros Hv Hnn Hw Hlt.
  destruct (price_to_words_tokens price whole Hv Hnn Hw Hlt)
    as (f & _ & Hw0 & Hf & Hrun).
  destruct (price_tokens_words whole f ltac:(lia) Hf) as [Hws Hlast].
  exists (price_tokens whole f). auto.
Qed.

Lemma price_to_words_shape_witness :
  (valid_binary prec emax (decimal 99 100) = true
   /\ nonnegative (decimal 99 100) = true
   /\ py_int (decimal 99 100) = Ok 0
   /\ 0 < 1000000000)
  /\ exists ws,
      forallb is_word ws = true
      /\ (last ws ""%string = "Pounds"%string
          \/ last ws ""%string = "Pence"%string)
      /\ price_to_words (decimal 99 100) = Ok (String.concat " " ws).
Proof.
  assert (valid_binary prec emax (decimal 99 100) = true) as H1
    by (vm_compute; reflexivity).
  assert (nonnegative (decimal 99 100) = true) as H2
    by (vm_compute; reflexivity).
  assert (py_int (decimal 99 100) = Ok 0) as H3
    by (vm_compute; reflexivity).
  assert (0 < 1000000000) as H4 by lia.
  split; [repeat split; assumption |].
  exact (price_to_words_shape (decimal 99 100) 0 H1 H2 H3 H4).
Defined.

(** *** The wording determines pounds and pence *)

Lemma group_word_not_unit (w : string) :
  group_word w = true -> unit_name w = false.
Proof.
  unfold group_word. intros H.
  apply andb_true_iff in H. destruct H as [H _].
  apply andb_true_iff in H. destruct H as [H _].
  apply andb_true_iff in H. destruct H as [_ H].
  apply negb_true_iff in H. exact H.
Qed.

Lemma group_tokens_no_unit (g : Z) :
  0 <= g <= 999 -> forallb (fun w => negb (unit_name w)) (group_tokens g) = true.
Proof.
  intros H. pose proof (group_tokens_words g H) as Hws.
  induction (group_tokens g) as [| w l IH]; [reflexivity |].
  cbn [forallb] in Hws |- *. apply andb_true_iff in Hws.
  destruct Hws as [Hw Hl].
  rewrite (group_word_not_unit w Hw), (IH Hl). reflexivity.
Qed.

Lemma tier_tokens_no_unit (g : Z) (name : string) :
  0 <= g <= 999 -> unit_name name = false ->
  forallb (fun w => negb (unit_name w)) (tier_tokens g name) = true.
Proof.
  intros H Hname. unfold tier_tokens. destruct (g =? 0); [reflexivity |].
  rewrite forallb_app, (group_tokens_no_unit g H). cbn [forallb].
  rewrite Hname. reflexivity.
Qed.

Lemma number_tokens_no_unit (n : Z) :
  0 <= n < 1000000000 ->
  forallb (fun w => negb (unit_name w)) (number_tokens n) = true.
Proof.
  intros H. destruct (number_parts n H) as (Hm & Hk & Hu & _).
  unfold number_tokens. destruct (n =? 0); [reflexivity |].
  rewrite !forallb_app, (group_tokens_no_unit _ Hu).
  rewrite (tier_tokens_no_unit _ "Million" Hm eq_refl).
  rewrite (tier_tokens_no_unit _ "Thousand" Hk eq_refl).
  reflexivity.
Qed.

Lemma split_at_unit (l1 l2 r1 r2 : list string) (u : string) :
  forallb (fun w => negb (unit_name w)) l1 = true ->
  forallb (fun w => negb (unit_name w)) l2 = true ->
  unit_name u = true ->
  (l1 ++ u :: r1 = l2 ++ u :: r2)%list ->
  l1 = l2 /\ r1 = r2.
Proof.
  intros H1 H2 Hu. revert l2 H2.
  induction l1 as [| a l1 IH]; intros [| b l2] H2 Heq; cbn [app] in Heq.
  - injection Heq as ->. auto.
  - injection Heq as <- _. cbn [forallb] in H2. rewrite Hu in H2.
    discriminate H2.
  - injection Heq as -> _. cbn [forallb] in H1. rewrite Hu in H1.
    discriminate H1.
  - injection Heq as -> Heq. cbn [forallb] in H1, H2.
    apply andb_true_iff in H1, H2.
    destruct (IH (proj2 H1) l2 (proj2 H2) Heq) as [-> ->]. auto.
Qed.

Lemma number_tokens_injective (a b : Z) :
  0 <= a < 1000000000 -> 0 <= b < 1000000000 ->
  number_tokens a = number_tokens b -> a = b.
Proof.
  intros Ha Hb Heq.
  rewrite <- (read_number_tokens a Ha), <- (read_number_tokens b Hb), Heq.
  reflexivity.
Qed.

Lemma price_tokens_injective (w1 f1 w2 f2 : Z) :
  0 <= w1 < 1000000000 -> 0 <= f1 <= 100 ->
  0 <= w2 < 1000000000 -> 0 <= f2 <= 100 ->
  price_tokens w1 f1 = price_tokens w2 f2 -> w1 = w2 /\ f1 = f2.
Proof.
  intros Hw1 Hf1 Hw2 Hf2 Heq. unfold price_tokens in Heq.
  apply split_at_unit in Heq;
    [| apply number_tokens_no_unit; assumption
     | apply number_tokens_no_unit; assumption
     | reflexivity].
  destruct Heq as [Hw Hrest].
  split; [apply number_tokens_injective; assumption |].
  destruct (Z.gtb_spec f1 0) as [P1 | P1];
    destruct (Z.gtb_spec f2 0) as [P2 | P2];
    try discriminate Hrest; [| lia].
  injection Hrest as Hrest. apply app_inj_tail in Hrest.
  destruct Hrest as [Hf _].
  apply number_tokens_injective; (assumption || lia).
Qed.

(** X10. The wording of a price fixes its pounds and pence: when
    price_to_words gives the same result for two non-negative amounts with
    whole parts below 1,000,000,000, their whole parts are equal and their
    rounded pence are equal. *)
Theorem price_to_words_injective (p1 p2 : float) (w1 w2 f1 f2 : Z) :
  valid_binary prec emax p1 = true -> valid_binary prec emax p2 = true ->
  nonnegative p1 = true -> nonnegative p2 = true ->
  py_int p1 = Ok w1 -> py_int p2 = Ok w2 ->
  w1 < 1000000000 -> w2 < 1000000000 ->
  rounded_hundredths p1 w1 = Ok f1 -> rounded_hundredths p2 w2 = Ok f2 ->
  price_to_words p1 = price_to_words p2 ->
  w1 = w2 /\ f1 = f2.
Proof.
  intros Hv1 Hv2 Hn1 Hn2 Hw1 Hw2 Hl1 Hl2 Hf1 Hf2 Heq.
  destruct (price_to_words_tokens p1 w1 Hv1 Hn1 Hw1 Hl1)
    as (g1 & Hg1 & Hw01 & Hr1 & Hrun1).
  destruct (price_to_words_tokens p2 w2 Hv2 Hn2 Hw2 Hl2)
    as (g2 & Hg2 & Hw02 & Hr2 & Hrun2).
  assert (g1 = f1) as -> by congruence.
  assert (g2 = f2) as -> by congruence.
  rewrite Hrun1, Hrun2 in Heq. injection Heq as Heq.
  destruct (price_tokens_words w1 f1 ltac:(lia) Hr1) as [Hws1 _].
  destruct (price_tokens_words w2 f2 ltac:(lia) Hr2) as [Hws2 _].
  assert (price_tokens w1 f1 = price_tokens w2 f2) as Htok.
  { rewrite <- (split_on_space_concat (price_tokens w1 f1)),
            <- (split_on_space_concat (price_tokens w2 f2)), Heq;
      try assumption; try reflexivity;
      unfold price_tokens;
      (destruct (number_tokens w1); discriminate)
      || (destruct (number_tokens w2); discriminate). }
  apply (price_tokens_injective w1 f1 w2 f2); (assumption || lia).
Qed.

Lemma price_to_words_injective_witness :
  (valid_binary prec emax (decimal 123450 100) = true
   /\ valid_binary prec emax (decimal 1234501 1000) = true
   /\ nonnegative (decimal 123450 100) = true
   /\ nonnegative (decimal 1234501 1000) = true
   /\ py_int (decimal 123450 100) = Ok 1234
   /\ py_int (decimal 1234501 1000) = Ok 1234
   /\ 1234 < 1000000000
   /\ rounded_hundredths (decimal 123450 100) 1234 = Ok 50
   /\ rounded_hundredths (decimal 1234501 1000) 1234 = Ok 50
   /\ price_to_words (decimal 123450 100)
      = price_to_words (decimal 1234501 1000))
  /\ 1234 = 1234 /\ 50 = 50.
Proof.
  assert (valid_binary prec emax (decimal 123450 100) = true) as H1
    by (vm_compute; reflexivity).
  assert (valid_binary prec emax (decimal 1234501 1000) = true) as H2
    by (vm_compute; reflexivity).
  assert (nonnegative (decimal 123450 100) = true) as H3
    by (vm_compute; reflexivity).
  assert (nonnegative (decimal 1234501 1000) = true) as H4
    by (vm_compute; reflexivity).
  assert (py_int (decimal 123450 100) = Ok 1234) as H5
    by (vm_compute; reflexivity).
  assert (py_int (decimal 1234501 1000) = Ok 1234) as H6
    by (vm_compute; reflexivity).
  assert (1234 < 1000000000) as H7 by lia.
  assert (rounded_hundredths (decimal 123450 100) 1234 = Ok 50) as H8
    by (vm_compute; reflexivity).
  assert (rounded_hundredths (decimal 1234501 1000) 1234 = Ok 50) as H9
    by (vm_compute; reflexivity).
  assert (price_to_words (decimal 123450 100)
          = price_to_words (decimal 1234501 1000)) as H10
    by (vm_compute; reflexivity).
  split; [repeat split; assumption |].
  exact (price_to_words_injective _ _ _ _ _ _ H1 H2 H3 H4 H5 H6 H7 H7 H8 H9 H10).
Defined.

(** ** Whole-pound amounts *)

Lemma py_float_of_int_small (n : Z) :
  0 < n < 2 ^ 53 ->
  exists m e,
    py_float_of_int n = Ok (S754_finite false m e)
    /\ bounded prec emax m e = true
    /\ e <= 0
    /\ Zpos m = n * 2 ^ (- e).
Proof.
  intros H. destruct n as [| q | q]; try lia.
  pose proof (digits_bounds q) as Hd.
  assert (Zpos (digits2_pos q) <= 53) as Hd53
    by (apply digits_upper; lia).
  set (d := Zpos (digits2_pos q)) in *.
  unfold py_float_of_int. cbn [binary_normalize]. unfold binary_round.
  rewrite Z.add_0_r. fold d. rewrite fexp_eq.
  replace (Z.max (d - 53) (-1074)) with (d - 53) by lia.
  pose proof (shl_align_spec q 0 (d - 53)) as [Hz Hm].
  destruct (shl_align q 0 (d - 53)) as [m ez]. cbn [fst snd] in Hz, Hm.
  replace (Z.min 0 (d - 53)) with (d - 53) in * by lia. subst ez.
  replace (0 - (d - 53)) with (53 - d) in Hm by lia.
  assert (bounded prec emax m (d - 53) = true) as Hb.
  { unfold bounded, canonical_mantissa.
    assert (Zpos (digits2_pos m) = 53) as Hdm.
    { apply digits_unique. rewrite Hm.
      replace (2 ^ (53 - 1)) with (2 ^ (d - 1) * 2 ^ (53 - d))
        by (rewrite <- Z.pow_add_r by lia; f_equal; lia).
      replace (2 ^ 53) with (2 ^ d * 2 ^ (53 - d))
        by (rewrite <- Z.pow_add_r by lia; f_equal; lia).
      assert (0 < 2 ^ (53 - d)) by (apply Z.pow_pos_nonneg; lia).
      nia. }
    rewrite Hdm, fexp_eq.
    apply andb_true_iff. split; [apply Z.eqb_eq | apply Z.leb_le].
    - lia.
    - unfold emax, prec. lia. }
  rewrite (binary_round_aux_canonical false m (d - 53) Hb).
  exists m, (d - 53). split; [reflexivity |]. split; [exact Hb |].
  split; [lia |]. rewrite Hm. f_equal. f_equal. lia.
Qed.

Lemma SFsub_diag (s : bool) (m : positive) (e : Z) :
  SFsub prec emax (S754_finite s m e) (S754_finite s m e)
  = S754_zero false.
Proof.
  unfold SFsub. rewrite Z.min_id, shl_align_noop by lia.
  cbn [fst]. rewrite Z.sub_diag. reflexivity.
Qed.

(** X11. A whole number of pounds is written without a Pence clause: for
    0 <= n < 1,000,000,000, price_to_words applied to the float of n
    returns the words of n followed by " Pounds". *)
Theorem price_to_words_whole_pounds (n : Z) (price : float) :
  0 <= n < 1000000000 ->
  py_float_of_int n = Ok price ->
  exists w,
    number_to_words n = Ok w
    /\ price_to_words price = Ok (w ++ " Pounds")%string.
Proof.
  intros Hn Hprice.
  destruct (number_to_words_returns n Hn) as [w Hw].
  exists w. split; [exact Hw |].
  destruct (Z.eq_dec n 0) as [-> | Hnz].
  { injection Hprice as <-. rewrite price_to_words_eq.
    injection Hw as <-. reflexivity. }
  destruct (py_float_of_int_small n ltac:(lia)) as (m & e & Hf & Hb & He & Hm).
  assert (price = S754_finite false m e) as -> by congruence.
  assert (py_int (S754_finite false m e) = Ok n) as Hint.
  { cbn [py_int cond_Zopp]. f_equal.
    destruct (Z.eq_dec e 0) as [-> | Hez].
    - rewrite Z.shiftl_0_r. cbn in Hm. lia.
    - rewrite Z.shiftl_div_pow2 by lia. rewrite Hm.
      apply Z.div_mul.
      assert (0 < 2 ^ (- e)) by (apply Z.pow_pos_nonneg; lia). lia. }
  rewrite price_to_words_eq, Hint. cbn [bind].
  unfold rounded_hundredths, py_float_sub_int. rewrite Hf. cbn [bind].
  rewrite SFsub_diag. unfold py_float_mul_int.
  rewrite py_float_of_int_100. cbn [bind SFmul xorb py_round].
  rewrite Hw. reflexivity.
Qed.

Lemma price_to_words_whole_pounds_witness :
  (0 <= 2500000 < 1000000000
   /\ py_float_of_int 2500000 = Ok (decimal 2500000 1))
  /\ exists w,
      number_to_words 2500000 = Ok w
      /\ price_to_words (decimal 2500000 1) = Ok (w ++ " Pounds")%string.
Proof.
  assert (0 <= 2500000 < 1000000000) as H1 by lia.
  assert (py_float_of_int 2500000 = Ok (decimal 2500000 1)) as H2
    by (vm_compute; reflexivity).
  split; [split; assumption |].
  exact (price_to_words_whole_pounds 2500000 (decimal 2500000 1) H1 H2).
Defined.

(** ** Where "and" is written *)

Lemma last_cons (x d : string) (l : list string) :
  last (x :: l) d = last l x.
Proof.
  revert x d. induction l as [| y l IH]; intros x d; [reflexivity |].
  change (last (x :: y :: l) d) with (last (y :: l) d).
  rewrite (IH y d), (IH y x). reflexivity.
Qed.

Lemma and_after_hundred_app (prev : string) (a b : list string) :
  and_after_hundred prev (a ++ b)
  = and_after_hundred prev a && and_after_hundred (last a prev) b.
Proof.
  revert prev. induction a as [| x a IH]; intros prev; [reflexivity |].
  cbn [app and_after_hundred]. rewrite IH, last_cons, andb_assoc.
  reflexivity.
Qed.

Lemma group_tokens_and (g : Z) (prev : string) :
  0 <= g <= 999 -> and_after_hundred prev (group_tokens g) = true.
Proof.
  intros H.
  assert (forall_upto 1000
            (fun k => and_after_hundred "" (group_tokens k)
                      && negb (String.eqb (hd ""%string (group_tokens k)) "and"))
          = true) as Hall by (vm_compute; reflexivity).
  pose proof (forall_upto_spec _ _ Hall g ltac:(lia)) as Hg.
  cbv beta in Hg. apply andb_true_iff in Hg. destruct Hg as [Hok Hhd].
  destruct (group_tokens g) as [| w r]; [reflexivity |].
  cbn [and_after_hundred hd] in *. rewrite Hhd.
  apply andb_true_iff in Hok. destruct Hok as [_ Hr]. exact Hr.
Qed.

Lemma tier_tokens_and (g : Z) (name prev : string) :
  0 <= g <= 999 -> String.eqb name "and" = false ->
  and_after_hundred prev (tier_tokens g name) = true.
Proof.
  intros H Hname. unfold tier_tokens. destruct (g =? 0); [reflexivity |].
  rewrite and_after_hundred_app, (group_tokens_and g prev H).
  cbn [and_after_hundred andb]. rewrite Hname. reflexivity.
Qed.

(** X12. number_to_words writes "and" only directly after "Hundred": for
    0 <= n < 1,000,000,000 the result, split into its words, never has
    "and" first or after "Thousand" or "Million" (1001 is written
    "One Thousand One"). *)
Theorem number_to_words_and_placement (n : Z) :
  0 <= n < 1000000000 ->
  exists ws,
    forallb is_word ws = true
    /\ number_to_words n = Ok (String.concat " " ws)
    /\ and_after_hundred "" ws = true.
Proof.
  intros H. exists (number_tokens n).
  destruct (number_tokens_words n H) as [_ Hws].
  split; [exact Hws |]. split; [apply number_to_words_tokens; exact H |].
  destruct (number_parts n H) as (Hm & Hk & Hu & _).
  unfold number_tokens. destruct (n =? 0); [reflexivity |].
  rewrite !and_after_hundred_app.
  rewrite (tier_tokens_and _ "Million" _ Hm eq_refl).
  rewrite (tier_tokens_and _ "Thousand" _ Hk eq_refl).
  rewrite (group_tokens_and _ _ Hu). reflexivity.
Qed.

Lemma number_to_words_and_placement_witness :
  0 <= 1001 < 1000000000
  /\ exists ws,
      forallb is_word ws = true
      /\ number_to_words 1001 = Ok (String.concat " " ws)
      /\ and_after_hundred "" ws = true.
Proof.
  split; [lia | apply (number_to_words_and_placement 1001); lia].
Defined.

Example number_to_words_1001 : number_to_words 1001 = Ok "One Thousand One".
Proof. vm_compute. reflexivity. Qed.
